(** * Gibson cache server: the event handlers of [src/gibson.c]

    A shallow embedding of the handlers of gibson.c (accept, read, write,
    the maintenance cron, the signal handler and the start-up clamp of
    [main]) together with the properties the specification states about
    them.

    Conventions.
    - C integers are modelled as [Z].  The struct declarations (net.h,
      query.h, atree.h) are not among the sources, so no width is attached
      to a field; [/] and [%] are C's truncating [Z.quot] and [Z.rem].
    - [time(NULL)], [read], [write], [accept] are inputs of the handler that
      performs them.
    - [gbLog] calls and [close] calls are appended to the trace of the
      server, oldest first. *)

From Stdlib Require Import QArith ZArith List Bool Lia.
Import ListNotations.
Open Scope Z_scope.

(** ** Items and the prefix trie *)

Inductive gbItemEncoding := PLAIN | NUMBER | COMPRESSED.

(** The fields of [gbItem] the handlers of gibson.c read: [item->time],
    [item->last_access_time], [item->ttl]; the others are listed by the
    data model of the specification. *)
Record gbItem := mkItem {
  item_data : list Z;
  item_size : Z;
  item_encoding : gbItemEncoding;
  item_time : Z;
  item_last_access_time : Z;
  item_ttl : Z;
  item_lock : Z
}.

(** Modelled from the spec: the trie node of atree.h, which is not among
    the sources.  A node carries an edge-label fragment, an optional marker
    pointing to the item terminating at that node, and its child edges in
    order. *)
#[local] Unset Elimination Schemes.
Inductive anode_t : Type :=
| Node (key : list Z) (marker : option gbItem) (links : list anode_t).
#[local] Set Elimination Schemes.

Definition node_key (n : anode_t) : list Z := let 'Node k _ _ := n in k.
Definition node_marker (n : anode_t) : option gbItem := let 'Node _ m _ := n in m.
Definition node_links (n : anode_t) : list anode_t := let 'Node _ _ l := n in l.

(** The empty tree left by [at_init_tree] and [at_free]. *)
Definition at_empty : anode_t := Node [] None [].

(** An induction principle that reaches the children of a node. *)
Section anode_induction.
Variable P : anode_t -> Prop.
Hypothesis P_node : forall k m ls, Forall P ls -> P (Node k m ls).

Fixpoint anode_ind' (n : anode_t) : P n :=
  match n with
  | Node k m ls =>
      P_node k m ls
        ((fix children (l : list anode_t) : Forall P l :=
            match l with
            | [] => Forall_nil P
            | c :: r => Forall_cons c (anode_ind' c) (children r)
            end) ls)
  end.
End anode_induction.

(** The items stored in the tree, each with the key spelled by the edge
    labels on its path, in traversal order. *)
Fixpoint at_items (prefix : list Z) (n : anode_t) : list (list Z * gbItem) :=
  match n with
  | Node k m ls =>
      match m with
      | Some it => [(prefix ++ k, it)]
      | None => []
      end ++ flat_map (at_items (prefix ++ k)) ls
  end.

(** Rewriting the marker of every node. *)
Fixpoint at_map (f : option gbItem -> option gbItem) (n : anode_t) : anode_t :=
  match n with
  | Node k m ls => Node k (f m) (map (at_map f) ls)
  end.

(** A node without marker and without children. *)
Definition at_is_empty (n : anode_t) : bool :=
  match n with
  | Node _ None [] => true
  | _ => false
  end.

(** Compaction, bottom-up: a node left without marker and without children
    is removed from its parent; the root stays. *)
Fixpoint at_compact (n : anode_t) : anode_t :=
  match n with
  | Node k m ls =>
      Node k m (filter (fun c => negb (at_is_empty c)) (map at_compact ls))
  end.

(** ** Server state *)

Inductive gbServerType := TCP | UNIX.

Inductive gbLogLevel := DEBUG | INFO | WARNING | ERROR | CRITICAL.

Inductive gbSignal := SIGTERM | SIGSEGV | SIGILL | SIGFPE | SIGABRT.

(** The [gbLog] calls of the modelled functions, with the numbers they
    format.  The crash report of the signal handler is one message; the
    start-up banner and the dump that follows a malformed query are left
    out. *)
Inductive gbLogMsg :=
| MsgMaxMemoryTooHigh (dropped_to : Z)
| MsgWriteError
| MsgClientClosed
| MsgUnexpectedStatus
| MsgRequestSizeInvalid (size : Z)
| MsgReadError
| MsgMalformedQuery
| MsgAcceptError
| MsgDroppingConnection (nclients maxclients : Z)
| MsgNewConnection
| MsgUnableToWaitReadable
| MsgOOMRemoving (eta : Z)
| MsgTTLExpired (ttl : Z)
| MsgFreedExpired (freed nitems : Z)
| MsgMaxMemoryExhausted (gc_ratio : Z)
| MsgFreed (freed nitems : Z)
| MsgStats (memused maxmem nclients nitems ncompressed : Z)
| MsgSigterm
| MsgCrashReport (sig : gbSignal) (memused maxmem nitems nclients : Z).

Inductive gbEffect :=
| Log (level : gbLogLevel) (msg : gbLogMsg)
| Close (fd : Z).

Record gbServerLimits := mkLimits {
  limits_maxidletime : Z;
  limits_maxclients : Z;
  limits_maxrequestsize : Z;
  limits_maxitemttl : Z;
  limits_maxmem : Z;
  limits_maxkeysize : Z;
  limits_maxvaluesize : Z;
  limits_maxresponsesize : Z
}.

(** [sizeavg] and [compravg] are floating point and left out. *)
Record gbServerStats := mkStats {
  stats_started : Z;
  stats_time : Z;
  stats_memused : Z;
  stats_mempeak : Z;
  stats_firstin : Z;
  stats_lastin : Z;
  stats_crondone : Z;
  stats_nclients : Z;
  stats_nitems : Z;
  stats_ncompressed : Z;
  stats_memavail : Z
}.

Definition GB_READABLE : Z := 1.
Definition GB_WRITABLE : Z := 2.

Inductive gbFileProc := AcceptProc | ReadQueryProc | WriteReplyProc.

(** Modelled from the spec: a file event of the reactor (the event loop
    source is not among the sources): readable or writable interest on a
    descriptor, with its callback. *)
Record gbFileEvent := mkFileEvent {
  fe_fd : Z;
  fe_mask : Z;
  fe_proc : gbFileProc
}.

(** [srv_clients] holds the descriptors of the live client objects, most
    recent first; [srv_events] the registered file events; [srv_running]
    is cleared when the event loop is deleted. *)
Record gbServer := mkServer {
  srv_type : gbServerType;
  srv_fd : Z;
  srv_limits : gbServerLimits;
  srv_stats : gbServerStats;
  srv_compression : Z;
  srv_cronperiod : Z;
  srv_gc_ratio : Z;
  srv_shutdown : Z;
  srv_tree : anode_t;
  srv_clients : list Z;
  srv_events : list gbFileEvent;
  srv_buffers : bool;
  srv_running : bool;
  srv_trace : list gbEffect
}.

Definition set_limits (l : gbServerLimits) (s : gbServer) : gbServer :=
  mkServer (srv_type s) (srv_fd s) l (srv_stats s) (srv_compression s)
    (srv_cronperiod s) (srv_gc_ratio s) (srv_shutdown s) (srv_tree s)
    (srv_clients s) (srv_events s) (srv_buffers s) (srv_running s) (srv_trace s).

Definition set_stats (st : gbServerStats) (s : gbServer) : gbServer :=
  mkServer (srv_type s) (srv_fd s) (srv_limits s) st (srv_compression s)
    (srv_cronperiod s) (srv_gc_ratio s) (srv_shutdown s) (srv_tree s)
    (srv_clients s) (srv_events s) (srv_buffers s) (srv_running s) (srv_trace s).

Definition set_shutdown (v : Z) (s : gbServer) : gbServer :=
  mkServer (srv_type s) (srv_fd s) (srv_limits s) (srv_stats s) (srv_compression s)
    (srv_cronperiod s) (srv_gc_ratio s) v (srv_tree s)
    (srv_clients s) (srv_events s) (srv_buffers s) (srv_running s) (srv_trace s).

Definition set_tree (t : anode_t) (s : gbServer) : gbServer :=
  mkServer (srv_type s) (srv_fd s) (srv_limits s) (srv_stats s) (srv_compression s)
    (srv_cronperiod s) (srv_gc_ratio s) (srv_shutdown s) t
    (srv_clients s) (srv_events s) (srv_buffers s) (srv_running s) (srv_trace s).

Definition set_clients (c : list Z) (s : gbServer) : gbServer :=
  mkServer (srv_type s) (srv_fd s) (srv_limits s) (srv_stats s) (srv_compression s)
    (srv_cronperiod s) (srv_gc_ratio s) (srv_shutdown s) (srv_tree s)
    c (srv_events s) (srv_buffers s) (srv_running s) (srv_trace s).

Definition set_events (e : list gbFileEvent) (s : gbServer) : gbServer :=
  mkServer (srv_type s) (srv_fd s) (srv_limits s) (srv_stats s) (srv_compression s)
    (srv_cronperiod s) (srv_gc_ratio s) (srv_shutdown s) (srv_tree s)
    (srv_clients s) e (srv_buffers s) (srv_running s) (srv_trace s).

Definition set_buffers (b : bool) (s : gbServer) : gbServer :=
  mkServer (srv_type s) (srv_fd s) (srv_limits s) (srv_stats s) (srv_compression s)
    (srv_cronperiod s) (srv_gc_ratio s) (srv_shutdown s) (srv_tree s)
    (srv_clients s) (srv_events s) b (srv_running s) (srv_trace s).

Definition set_running (b : bool) (s : gbServer) : gbServer :=
  mkServer (srv_type s) (srv_fd s) (srv_limits s) (srv_stats s) (srv_compression s)
    (srv_cronperiod s) (srv_gc_ratio s) (srv_shutdown s) (srv_tree s)
    (srv_clients s) (srv_events s) (srv_buffers s) b (srv_trace s).

Definition emit (e : gbEffect) (s : gbServer) : gbServer :=
  mkServer (srv_type s) (srv_fd s) (srv_limits s) (srv_stats s) (srv_compression s)
    (srv_cronperiod s) (srv_gc_ratio s) (srv_shutdown s) (srv_tree s)
    (srv_clients s) (srv_events s) (srv_buffers s) (srv_running s)
    (srv_trace s ++ [e]).

Definition gbLog (level : gbLogLevel) (msg : gbLogMsg) (s : gbServer) : gbServer :=
  emit (Log level msg) s.

Definition set_time (t : Z) (st : gbServerStats) : gbServerStats :=
  mkStats (stats_started st) t (stats_memused st) (stats_mempeak st)
    (stats_firstin st) (stats_lastin st) (stats_crondone st) (stats_nclients st)
    (stats_nitems st) (stats_ncompressed st) (stats_memavail st).

Definition set_crondone (n : Z) (st : gbServerStats) : gbServerStats :=
  mkStats (stats_started st) (stats_time st) (stats_memused st) (stats_mempeak st)
    (stats_firstin st) (stats_lastin st) n (stats_nclients st)
    (stats_nitems st) (stats_ncompressed st) (stats_memavail st).

Definition set_nclients (n : Z) (st : gbServerStats) : gbServerStats :=
  mkStats (stats_started st) (stats_time st) (stats_memused st) (stats_mempeak st)
    (stats_firstin st) (stats_lastin st) (stats_crondone st) n
    (stats_nitems st) (stats_ncompressed st) (stats_memavail st).

Definition set_items (memused nitems ncompressed : Z) (st : gbServerStats) : gbServerStats :=
  mkStats (stats_started st) (stats_time st) memused (stats_mempeak st)
    (stats_firstin st) (stats_lastin st) (stats_crondone st) (stats_nclients st)
    nitems ncompressed (stats_memavail st).

(** ** Clients *)

Inductive gbClientStatus :=
| STATUS_WAITING_SIZE
| STATUS_WAITING_BUFFER
| STATUS_SENDING_REPLY.

(** [client_buffer] is [None] for a NULL pointer.  [client_buffer_size] is
    the value of the 4-byte field; [client_spill] records the bytes a read
    stored past that field, as (byte offset from the start of the field,
    byte), oldest first.  In the program those bytes overwrite whatever
    follows the field in memory, which depends on the layout of the struct,
    declared in net.h: the record keeps its other fields as they were only
    to carry the trace on, and once the spill is not empty they no longer
    speak for the program.  What the record then states of the program is
    the value of [client_buffer_size] and the spill itself. *)
Record gbClient := mkClient {
  client_fd : Z;
  client_buffer : option (list Z);
  client_buffer_size : Z;
  client_read : Z;
  client_wrote : Z;
  client_seen : Z;
  client_status : gbClientStatus;
  client_shutdown : Z;
  client_spill : list (Z * Z)
}.

(** ** Functions of the repository outside gibson.c *)

(** Modelled from the spec: the fixed per-item overhead charged by the
    allocator shim for an item record (query.h is not among the sources);
    no property below depends on its value. *)
Definition item_overhead : Z := 56.

(** Modelled from the spec: [gbDestroyItem] (query.c is not among the
    sources) disposes an item, freeing its data buffer and its record
    while updating the memory counter and [stats.nitems] /
    [stats.ncompressed]. *)
Definition gbDestroyItem (server : gbServer) (item : gbItem) : gbServer :=
  let st := srv_stats server in
  set_stats
    (set_items (stats_memused st - (item_size item + item_overhead))
       (stats_nitems st - 1)
       (match item_encoding item with
        | COMPRESSED => stats_ncompressed st - 1
        | _ => stats_ncompressed st
        end) st)
    server.

(** A visitor of [at_recurse] receives the node, the level and the context
    (always the server here); it returns the marker it leaves on the node
    and the context. *)
Definition at_recurse_handler : Type :=
  anode_t -> Z -> gbServer -> option gbItem * gbServer.

(** Modelled from the spec: [at_recurse] (atree.c is not among the sources)
    is a depth-first traversal in edge order that calls the visitor on every
    node; the visitor may empty the marker of the current node, and the
    traversal compacts: on the way back it removes the children left
    without marker and without children. *)
Fixpoint at_recurse (handler : at_recurse_handler) (node : anode_t)
    (data : gbServer) (level : Z) {struct node} : anode_t * gbServer :=
  match node with
  | Node k _ ls =>
      let '(m', d1) := handler node level data in
      let '(ls', d2) :=
        (fix links_loop (l : list anode_t) (d : gbServer) {struct l}
           : list anode_t * gbServer :=
           match l with
           | [] => ([], d)
           | c :: rest =>
               let '(c', d') := at_recurse handler c d (level + 1) in
               let '(rest', d'') := links_loop rest d' in
               (c' :: rest', d'')
           end) ls d1 in
      (Node k m' (filter (fun c => negb (at_is_empty c)) ls'), d2)
  end.

(** The loop of [at_recurse] over the children of a node. *)
Fixpoint at_recurse_links (handler : at_recurse_handler) (l : list anode_t)
    (d : gbServer) (level : Z) : list anode_t * gbServer :=
  match l with
  | [] => ([], d)
  | c :: rest =>
      let '(c', d') := at_recurse handler c d level in
      let '(rest', d'') := at_recurse_links handler rest d' level in
      (c' :: rest', d'')
  end.

(** Modelled from the spec: a client is destroyed on close, error or
    time-out (net.c is not among the sources): its file events are
    unregistered, its descriptor is closed and it leaves the client set. *)
Definition client_release (fd : Z) (server : gbServer) : gbServer :=
  let s1 := set_events
              (filter (fun e => negb (fe_fd e =? fd)) (srv_events server)) server in
  let s2 := emit (Close fd) s1 in
  let s3 := set_clients (filter (fun c => negb (c =? fd)) (srv_clients s2)) s2 in
  set_stats (set_nclients (stats_nclients (srv_stats s3) - 1) (srv_stats s3)) s3.

(** Modelled from the spec: [gbClientDestroy] (net.c is not among the
    sources) releases the descriptor of the client as above. *)
Definition gbClientDestroy (client : gbClient) (server : gbServer) : gbServer :=
  client_release (client_fd client) server.

(** Modelled from the spec: a client is created on accept, waiting for the
    size prefix of its first request (net.c is not among the sources). *)
Definition gbClientCreate (fd : Z) (server : gbServer) : gbClient * gbServer :=
  (mkClient fd None 0 0 0 (stats_time (srv_stats server)) STATUS_WAITING_SIZE 0 [],
   set_stats (set_nclients (stats_nclients (srv_stats server) + 1) (srv_stats server))
     (set_clients (fd :: srv_clients server) server)).

(** Modelled from the spec: resetting a client after its reply has been
    flushed makes it wait for the next size prefix (net.c is not among the
    sources). *)
Definition gbClientReset (client : gbClient) : gbClient :=
  mkClient (client_fd client) None 0 0 0 (client_seen client)
    STATUS_WAITING_SIZE (client_shutdown client) (client_spill client).

(** Modelled from the spec: registering and unregistering interest in a
    descriptor (the event loop source is not among the sources). *)
Definition gbCreateFileEvent (fd mask : Z) (proc : gbFileProc)
    (server : gbServer) : gbServer :=
  set_events (mkFileEvent fd mask proc :: srv_events server) server.

(** Modelled from the spec: [gbDeleteFileEvent] drops the interest [mask]
    registered on the descriptor. *)
Definition gbDeleteFileEvent (fd mask : Z) (server : gbServer) : gbServer :=
  set_events
    (filter (fun e => negb ((fe_fd e =? fd) && (fe_mask e =? mask)))
       (srv_events server))
    server.

(** Whether the interest [mask] is registered on the descriptor. *)
Definition registered (fd mask : Z) (server : gbServer) : bool :=
  existsb (fun e => (fe_fd e =? fd) && (fe_mask e =? mask)) (srv_events server).

(** ** Outcome of a handler: the process keeps running, exits, or performs
    an undefined operation (an integer division by zero). *)

Inductive outcome (A : Type) : Type :=
| Running (a : A)
| Exited (code : Z) (final : gbServer)
| Fault.

Arguments Running {A} a.
Arguments Exited {A} code final.
Arguments Fault {A}.

Definition bind {A B : Type} (m : outcome A) (k : A -> outcome B) : outcome B :=
  match m with
  | Running a => k a
  | Exited c f => Exited c f
  | Fault => Fault
  end.

Notation "x <- m ;; k" := (bind m (fun x => k))
  (at level 61, m at next level, right associativity).

(** The status the parent of the process observes for [exit(code)]. *)
Definition exit_status (code : Z) : Z := Z.land code 255.

(** ** The trie visitors of gibson.c *)

(** [GB_DEL_ITEM(s,n,i)] (gibson.c, line 462):
    [(n)->marker = NULL; gbDestroyItem( (s), (i) )]. *)
Definition GB_DEL_ITEM (s : gbServer) (i : gbItem) : option gbItem * gbServer :=
  (None, gbDestroyItem s i).

(** [gbMemoryFreeHandler] (gibson.c, lines 464-475).  [eta] is 0 when the
    node has no item, and [if( eta && ... )] then skips the node. *)
Definition gbMemoryFreeHandler : at_recurse_handler :=
  fun node level data =>
  let server := data in
  let item := node_marker node in
  let eta := match item with
             | Some it => stats_time (srv_stats server) - item_last_access_time it
             | None => 0
             end in
  if negb (eta =? 0) && (srv_gc_ratio server <=? eta) then
    match item with
    | Some it => GB_DEL_ITEM (gbLog DEBUG (MsgOOMRemoving eta) server) it
    | None => (item, server)
    end
  else (item, server).

(** [gbHandleDeadTTLHandler] (gibson.c, lines 477-488). *)
Definition gbHandleDeadTTLHandler : at_recurse_handler :=
  fun node level data =>
  let server := data in
  let item := node_marker node in
  match item with
  | Some it =>
      let eta := stats_time (srv_stats server) - item_time it in
      if (0 <? item_ttl it) && (item_ttl it <=? eta) then
        GB_DEL_ITEM (gbLog DEBUG (MsgTTLExpired (item_ttl it)) server) it
      else (item, server)
  | None => (item, server)
  end.

(** [gbObjectDestroyHandler] (gibson.c, lines 674-678). *)
Definition gbObjectDestroyHandler : at_recurse_handler :=
  fun elem level data =>
  match node_marker elem with
  | Some item => (Some item, gbDestroyItem data item)
  | None => (None, data)
  end.

(** ** Shutdown *)

(** [gbServerDestroy] (gibson.c, lines 686-715) up to its [exit( 0 )]: the
    state it leaves.  The configuration tree is not represented. *)
Definition gbServerDestroy (server : gbServer) : gbServer :=
  let s1 := fold_left (fun s fd => client_release fd s) (srv_clients server) server in
  let s2 := set_clients [] s1 in
  let s3 := set_buffers false s2 in
  let '(_, s4) := at_recurse gbObjectDestroyHandler (srv_tree s3) s3 0 in
  let s5 := set_tree at_empty s4 in
  set_running false (set_events [] s5).

(** [gbSignalHandler] (gibson.c, lines 592-642), for the signals
    [gbProcessInit] installs it on. *)
Definition gbSignalHandler (sig : gbSignal) (server : gbServer) : outcome gbServer :=
  match sig with
  | SIGTERM => Running (set_shutdown 1 (gbLog WARNING MsgSigterm server))
  | _ =>
      Exited (-1)
        (gbLog CRITICAL
           (MsgCrashReport sig (stats_memused (srv_stats server))
              (limits_maxmem (srv_limits server))
              (stats_nitems (srv_stats server))
              (stats_nclients (srv_stats server)))
           server)
  end.

(** ** The cron *)

(** [CRON_EVERY(_ms_)] (gibson.c, line 490) guards the block that follows
    it: [if ((_ms_ <= server->cronperiod) || !(server->stats.crondone %
    ((_ms_)/server->cronperiod)))].  A zero divisor is a [Fault]. *)
Definition CRON_EVERY (ms : Z) (server : gbServer) (block : gbServer -> gbServer)
    : outcome gbServer :=
  if ms <=? srv_cronperiod server then Running (block server)
  else if (srv_cronperiod server =? 0)
          || (Z.quot ms (srv_cronperiod server) =? 0) then Fault
  else if Z.rem (stats_crondone (srv_stats server))
                (Z.quot ms (srv_cronperiod server)) =? 0
       then Running (block server)
       else Running server.

(** The decision of [CRON_EVERY] alone, where it is defined. *)
Definition cron_due (ms : Z) (server : gbServer) : bool :=
  (ms <=? srv_cronperiod server)
  || (Z.rem (stats_crondone (srv_stats server))
            (Z.quot ms (srv_cronperiod server)) =? 0).

(** The block under the first [CRON_EVERY( 15000 )] (lines 509-521). *)
Definition cron_ttl_block (server : gbServer) : gbServer :=
  let before := stats_memused (srv_stats server) in
  let '(t, s1) := at_recurse gbHandleDeadTTLHandler (srv_tree server) server 0 in
  let s2 := set_tree t s1 in
  let deleted := before - stats_memused (srv_stats s2) in
  if 0 <? deleted
  then gbLog INFO (MsgFreedExpired deleted (stats_nitems (srv_stats s2))) s2
  else s2.

(** The block under [CRON_EVERY( 5000 )] (lines 523-536). *)
Definition cron_memory_block (server : gbServer) : gbServer :=
  if limits_maxmem (srv_limits server) <? stats_memused (srv_stats server) then
    let before := stats_memused (srv_stats server) in
    let s0 := gbLog WARNING (MsgMaxMemoryExhausted (srv_gc_ratio server)) server in
    let '(t, s1) := at_recurse gbMemoryFreeHandler (srv_tree s0) s0 0 in
    let s2 := set_tree t s1 in
    gbLog INFO (MsgFreed (before - stats_memused (srv_stats s2))
                  (stats_nitems (srv_stats s2))) s2
  else server.

(** The block under the second [CRON_EVERY( 15000 )] (lines 538-557). *)
Definition cron_stats_block (server : gbServer) : gbServer :=
  gbLog INFO
    (MsgStats (stats_memused (srv_stats server)) (limits_maxmem (srv_limits server))
       (stats_nclients (srv_stats server)) (stats_nitems (srv_stats server))
       (stats_ncompressed (srv_stats server)))
    server.

(** [gbServerCronHandler] (gibson.c, lines 492-562); [now] is the value of
    [time(NULL)].  It returns the server and the delay to the next tick. *)
Definition gbServerCronHandler (now : Z) (server : gbServer) : outcome (gbServer * Z) :=
  let server := set_stats (set_time now (srv_stats server)) server in
  if negb (srv_shutdown server =? 0) then Exited 0 (gbServerDestroy server)
  else
    s1 <- CRON_EVERY 15000 server cron_ttl_block ;;
    s2 <- CRON_EVERY 5000 s1 cron_memory_block ;;
    s3 <- CRON_EVERY 15000 s2 cron_stats_block ;;
    Running
      (set_stats (set_crondone (stats_crondone (srv_stats s3) + 1) (srv_stats s3)) s3,
       srv_cronperiod s3).

(** ** Start-up *)

(** The values [main] reads from the configuration, defaults applied. *)
Record gbConfigValues := mkConfig {
  cfg_type : gbServerType;
  cfg_max_idletime : Z;
  cfg_max_clients : Z;
  cfg_max_request_size : Z;
  cfg_max_item_ttl : Z;
  cfg_max_memory : Z;
  cfg_max_key_size : Z;
  cfg_max_value_size : Z;
  cfg_max_response_size : Z;
  cfg_compression : Z;
  cfg_cron_period : Z;
  cfg_gc_ratio : Z
}.

(** [main] (gibson.c, lines 170-217 and 262) from the reading of the limits
    to the registration of the accept handler: [fd] is the listening socket,
    [now] the value of [time(NULL)], [memavail] the value of
    [zmem_available()]. *)
Definition main (cfg : gbConfigValues) (fd now memavail : Z) : gbServer :=
  let limits :=
    mkLimits (cfg_max_idletime cfg) (cfg_max_clients cfg) (cfg_max_request_size cfg)
      (cfg_max_item_ttl cfg) (cfg_max_memory cfg) (cfg_max_key_size cfg)
      (cfg_max_value_size cfg) (cfg_max_response_size cfg) in
  let stats := mkStats now now 0 0 0 0 0 0 0 0 memavail in
  let server :=
    mkServer (cfg_type cfg) fd limits stats (cfg_compression cfg)
      (cfg_cron_period cfg) (cfg_gc_ratio cfg) 0 at_empty [] [] true true [] in
  let server :=
    if stats_memavail (srv_stats server) <? limits_maxmem (srv_limits server) then
      let half := Z.quot (stats_memavail (srv_stats server)) 2 in
      let server := gbLog WARNING (MsgMaxMemoryTooHigh half) server in
      set_limits
        (mkLimits (cfg_max_idletime cfg) (cfg_max_clients cfg)
           (cfg_max_request_size cfg) (cfg_max_item_ttl cfg) half
           (cfg_max_key_size cfg) (cfg_max_value_size cfg)
           (cfg_max_response_size cfg))
        server
    else server in
  gbCreateFileEvent (srv_fd server) GB_READABLE AcceptProc server.

(** ** System calls *)

Definition EAGAIN : Z := 11.
Definition GB_OK : Z := 0.
Definition GB_ERR : Z := -1.
Definition sizeof_int : Z := 4.
Definition sizeof_short : Z := 2.

(** The result of [write]: [-1] with [errno], or the number of bytes
    taken. *)
Inductive write_result :=
| WriteError (errno : Z)
| Wrote (n : Z).

(** What [read] finds: [-1] with [errno], or the bytes waiting on the
    socket (none at end of file), of which it delivers at most the number
    asked for. *)
Inductive read_result :=
| ReadError (errno : Z)
| ReadAvailable (bytes : list Z).

(** ** The write handler *)

Definition set_wrote_seen (wrote seen : Z) (c : gbClient) : gbClient :=
  mkClient (client_fd c) (client_buffer c) (client_buffer_size c) (client_read c)
    wrote seen (client_status c) (client_shutdown c) (client_spill c).

(** [gbWriteReplyHandler] (gibson.c, lines 297-340); [w] is the result of
    its [write].  It returns the server and the client, [None] once the
    client is destroyed. *)
Definition gbWriteReplyHandler (w : write_result) (server : gbServer)
    (client : gbClient) : gbServer * option gbClient :=
  match client_status client with
  | STATUS_SENDING_REPLY =>
      match w with
      | WriteError errno =>
          if errno =? EAGAIN then (server, Some client)
          else (gbClientDestroy client (gbLog DEBUG MsgWriteError server), None)
      | Wrote nwrote =>
          if nwrote =? 0
          then (gbClientDestroy client (gbLog DEBUG MsgClientClosed server), None)
          else
            let client :=
              set_wrote_seen (client_wrote client + nwrote)
                (stats_time (srv_stats server)) client in
            if client_wrote client =? client_buffer_size client then
              if negb (client_shutdown client =? 0)
              then (gbClientDestroy client server, None)
              else (gbDeleteFileEvent (client_fd client) GB_WRITABLE server,
                    Some (gbClientReset client))
            else (server, Some client)
      end
  | _ => (gbClientDestroy client (gbLog WARNING MsgUnexpectedStatus server), None)
  end.

(** ** The read handler *)

(** The pointer [p] of [gbReadQueryHandler]: NULL, a byte offset from the
    start of the field [client->buffer_size], or an offset into
    [client->buffer]. *)
Inductive read_ptr :=
| PNull
| PSize (byte_offset : Z)
| PBuffer (offset : Z).

(** The locals [p], [nread] and [toread]. *)
Record read_locals := mkLocals {
  l_p : read_ptr;
  l_nread : Z;
  l_toread : Z
}.

(** The 4-byte field as bytes, and back (the field is read on a
    little-endian host). *)
Definition le_bytes (v : Z) : list Z :=
  [Z.land v 255; Z.land (Z.shiftr v 8) 255;
   Z.land (Z.shiftr v 16) 255; Z.land (Z.shiftr v 24) 255].

Definition le_value (bytes : list Z) : Z :=
  fold_right (fun b acc => b + 256 * acc) 0 bytes.

Definition set_byte (k b v : Z) : Z :=
  Z.lor (Z.ldiff v (Z.shiftl 255 (8 * k))) (Z.shiftl b (8 * k)).

Definition set_size_spill (size : Z) (spill : list (Z * Z)) (c : gbClient) : gbClient :=
  mkClient (client_fd c) (client_buffer c) size (client_read c) (client_wrote c)
    (client_seen c) (client_status c) (client_shutdown c) spill.

Definition set_buffer (b : option (list Z)) (c : gbClient) : gbClient :=
  mkClient (client_fd c) b (client_buffer_size c) (client_read c) (client_wrote c)
    (client_seen c) (client_status c) (client_shutdown c) (client_spill c).

Definition set_read_status (read : Z) (st : gbClientStatus) (c : gbClient) : gbClient :=
  mkClient (client_fd c) (client_buffer c) (client_buffer_size c) read (client_wrote c)
    (client_seen c) st (client_shutdown c) (client_spill c).

Definition set_read_seen (read seen : Z) (c : gbClient) : gbClient :=
  mkClient (client_fd c) (client_buffer c) (client_buffer_size c) read (client_wrote c)
    seen (client_status c) (client_shutdown c) (client_spill c).

(** Storing bytes from a byte offset relative to the size field.  At the
    offsets 0 to 3 the byte of the field is replaced, as the program does.
    A byte stored at any other offset is written outside the field: the
    field is left as it is and the write is recorded in the spill, with its
    offset; its effect on the memory next to the field is not
    represented. *)
Fixpoint store_size (off : Z) (bytes : list Z) (c : gbClient) : gbClient :=
  match bytes with
  | [] => c
  | b :: rest =>
      store_size (off + 1) rest
        (if (0 <=? off) && (off <? sizeof_int)
         then set_size_spill (set_byte off b (client_buffer_size c)) (client_spill c) c
         else set_size_spill (client_buffer_size c) (client_spill c ++ [(off, b)]) c)
  end.

Definition store_buffer (off : Z) (bytes : list Z) (c : gbClient) : gbClient :=
  match client_buffer c with
  | Some buf =>
      set_buffer
        (Some (firstn (Z.to_nat off) buf ++ bytes
               ++ skipn (Z.to_nat off + length bytes) buf)) c
  | None => c
  end.

Definition store (p : read_ptr) (bytes : list Z) (c : gbClient) : gbClient :=
  match p with
  | PNull => c
  | PSize off => store_size off bytes c
  | PBuffer off => store_buffer off bytes c
  end.

(** [zmalloc( size )]: a fresh buffer of that many bytes; their initial
    value is immaterial and taken as 0.  The accounting of request buffers
    by the allocator shim is not represented. *)
Definition zmalloc (size : Z) : list Z := repeat 0 (Z.to_nat size).

(** First block of [gbReadQueryHandler] (lines 349-369), [if(
    client->status == STATUS_WAITING_SIZE )]: [None] after its [return].
    [&client->buffer_size + client->read] is an addition on a pointer to the
    4-byte field, so it advances by [client->read] times 4 bytes; the cast
    to [byte_t *] comes after it. *)
Definition read_size_block (server : gbServer) (client : gbClient) (l : read_locals)
    : gbServer * option (gbClient * read_locals) :=
  match client_status client with
  | STATUS_WAITING_SIZE =>
      let toread := sizeof_int - client_read client in
      if 0 <? toread then
        (server,
         Some (client, mkLocals (PSize (sizeof_int * client_read client)) (l_nread l) toread))
      else
        let client := set_read_status 0 STATUS_WAITING_BUFFER client in
        if (limits_maxrequestsize (srv_limits server) <? client_buffer_size client)
           || (client_buffer_size client <? sizeof_short)
        then
          (gbClientDestroy client
             (gbLog WARNING (MsgRequestSizeInvalid (client_buffer_size client)) server),
           None)
        else
          (server,
           Some (set_buffer (Some (zmalloc (client_buffer_size client))) client,
                 mkLocals (l_p l) (l_nread l) toread))
  | _ => (server, Some (client, l))
  end.

(** Second block (lines 372-382), [if( client->status ==
    STATUS_WAITING_BUFFER )]. *)
Definition read_buffer_block (client : gbClient) (l : read_locals)
    : gbClient * read_locals :=
  match client_status client with
  | STATUS_WAITING_BUFFER =>
      let toread := client_buffer_size client - client_read client in
      if 0 <? toread then
        (client, mkLocals (PBuffer (client_read client)) (l_nread l) toread)
      else
        (set_read_status 0 STATUS_SENDING_REPLY client,
         mkLocals (l_p l) (l_nread l) toread)
  | _ => (client, l)
  end.

(** Third block (lines 385-404), [if( client->status !=
    STATUS_SENDING_REPLY )]: the [read] itself. *)
Definition read_io_block (r : read_result) (server : gbServer) (client : gbClient)
    (l : read_locals) : gbServer * option (gbClient * read_locals) :=
  match client_status client with
  | STATUS_SENDING_REPLY => (server, Some (client, l))
  | _ =>
      match r with
      | ReadError errno =>
          if errno =? EAGAIN
          then (server, Some (client, mkLocals (l_p l) 0 (l_toread l)))
          else (gbClientDestroy client (gbLog WARNING MsgReadError server), None)
      | ReadAvailable bytes =>
          let got := firstn (Z.to_nat (l_toread l)) bytes in
          let nread := Z.of_nat (length got) in
          if nread =? 0
          then (gbClientDestroy client (gbLog DEBUG MsgClientClosed server), None)
          else (server, Some (store (l_p l) got client,
                              mkLocals (l_p l) nread (l_toread l)))
      end
  end.

(** Lines 406-407: [client->read += nread; client->seen =
    client->server->stats.time;] *)
Definition read_account_block (server : gbServer) (client : gbClient) (l : read_locals)
    : gbClient :=
  set_read_seen (client_read client + l_nread l) (stats_time (srv_stats server)) client.

Section ReadHandler.

(** [gbProcessQuery] (query.c) is not among the sources: it is a parameter
    of the read handler, returning its result code, the server and the
    client as it leaves them. *)
Variable gbProcessQuery : gbServer -> gbClient -> Z * gbServer * gbClient.

(** Last block (lines 410-422): the query is processed once the request is
    complete. *)
Definition read_process_block (server : gbServer) (client : gbClient)
    : gbServer * option gbClient :=
  match client_status client with
  | STATUS_WAITING_BUFFER =>
      if client_read client =? client_buffer_size client then
        let client := set_read_status (client_read client) STATUS_SENDING_REPLY client in
        let '(rc, server, client) := gbProcessQuery server client in
        if negb (rc =? GB_OK)
        then (gbClientDestroy client (gbLog WARNING MsgMalformedQuery server), None)
        else (server, Some client)
      else (server, Some client)
  | _ => (server, Some client)
  end.

(** The handler from its second block on. *)
Definition read_continue (r : read_result) (server : gbServer) (client : gbClient)
    (l : read_locals) : gbServer * option gbClient :=
  let '(client, l) := read_buffer_block client l in
  match read_io_block r server client l with
  | (server, None) => (server, None)
  | (server, Some (client, l)) =>
      read_process_block server (read_account_block server client l)
  end.

(** [gbReadQueryHandler] (gibson.c, lines 342-423); [r] is what its [read]
    finds and [nread0] the indeterminate initial value of the local
    [nread]. *)
Definition gbReadQueryHandler (r : read_result) (nread0 : Z) (server : gbServer)
    (client : gbClient) : gbServer * option gbClient :=
  match read_size_block server client (mkLocals PNull nread0 0) with
  | (server, None) => (server, None)
  | (server, Some (client, l)) => read_continue r server client l
  end.

End ReadHandler.

(** ** The accept handler *)

(** What the accept handler finds: the descriptor returned by
    [gbNetTcpAccept] / [gbNetUnixAccept] ([GB_ERR] on failure) and whether
    [gbCreateFileEvent] accepts the registration. *)
Record accept_env := mkAccept {
  acc_client_fd : Z;
  acc_event_ok : bool
}.

(** [gbAcceptHandler] (gibson.c, lines 425-460): it returns the server and
    the client object it set up, if any.  The socket options set by [gbNetNonBlock],
    [gbNetEnableTcpNoDelay] and [gbNetKeepAlive] are not represented. *)
Definition gbAcceptHandler (env : accept_env) (server : gbServer)
    : gbServer * option gbClient :=
  let client_fd := acc_client_fd env in
  if client_fd =? GB_ERR then (gbLog WARNING MsgAcceptError server, None)
  else
    let server :=
      if limits_maxclients (srv_limits server) <=? stats_nclients (srv_stats server)
      then gbLog WARNING
             (MsgDroppingConnection (stats_nclients (srv_stats server))
                (limits_maxclients (srv_limits server)))
             (emit (Close client_fd) server)
      else server in
    let server := gbLog DEBUG MsgNewConnection server in
    if negb (client_fd =? -1) then
      let '(client, server) := gbClientCreate client_fd server in
      if acc_event_ok env
      then (gbCreateFileEvent client_fd GB_READABLE ReadQueryProc server, Some client)
      else (emit (Close client_fd)
              (gbClientDestroy client (gbLog WARNING MsgUnableToWaitReadable server)),
            None)
    else (server, None).

(** ** The specification's predicates and proof vocabulary *)

(** Expired (item store): [ttl > 0 && now - created_at >= ttl]. *)
Definition expired (now : Z) (it : gbItem) : bool :=
  (0 <? item_ttl it) && (item_ttl it <=? now - item_time it).

(** What [gbMemoryFreeHandler] evicts: a non-zero idle age that reaches
    [gc_ratio]. *)
Definition idle_out (now gc_ratio : Z) (it : gbItem) : bool :=
  negb (now - item_last_access_time it =? 0)
  && (gc_ratio <=? now - item_last_access_time it).

(** Emptying the markers of the items selected by [del]. *)
Definition drop (del : gbItem -> bool) (m : option gbItem) : option gbItem :=
  match m with
  | Some it => if del it then None else Some it
  | None => None
  end.

(** What a trie visitor leaves alone in the server: everything but the
    item counters and the trace. *)
Definition frame (s s' : gbServer) : Prop :=
  srv_type s' = srv_type s /\ srv_fd s' = srv_fd s /\
  srv_limits s' = srv_limits s /\
  stats_time (srv_stats s') = stats_time (srv_stats s) /\
  stats_crondone (srv_stats s') = stats_crondone (srv_stats s) /\
  stats_nclients (srv_stats s') = stats_nclients (srv_stats s) /\
  srv_cronperiod s' = srv_cronperiod s /\ srv_gc_ratio s' = srv_gc_ratio s /\
  srv_shutdown s' = srv_shutdown s /\ srv_tree s' = srv_tree s /\
  srv_clients s' = srv_clients s /\ srv_events s' = srv_events s /\
  srv_buffers s' = srv_buffers s /\ srv_running s' = srv_running s.

(** What a cron block leaves alone: the configuration, the clock, the tick
    counter and the client side. *)
Definition steady (s s' : gbServer) : Prop :=
  srv_limits s' = srv_limits s /\
  stats_time (srv_stats s') = stats_time (srv_stats s) /\
  stats_crondone (srv_stats s') = stats_crondone (srv_stats s) /\
  stats_nclients (srv_stats s') = stats_nclients (srv_stats s) /\
  srv_cronperiod s' = srv_cronperiod s /\ srv_gc_ratio s' = srv_gc_ratio s /\
  srv_shutdown s' = srv_shutdown s /\
  srv_clients s' = srv_clients s /\ srv_events s' = srv_events s.

Definition tick (now : Z) (server : gbServer) : gbServer :=
  set_stats (set_time now (srv_stats server)) server.

Definition gated (ms : Z) (block : gbServer -> gbServer) (s : gbServer) : gbServer :=
  if cron_due ms s then block s else s.

(** ** Sample states *)

Definition sample_limits (maxclients maxmem : Z) : gbServerLimits :=
  mkLimits 60 maxclients 1024 2592000 maxmem 256 512 2048.

Definition sample_server (maxclients maxmem memused nclients gc_ratio : Z)
    (tree : anode_t) (clients : list Z) (events : list gbFileEvent) : gbServer :=
  mkServer TCP 3 (sample_limits maxclients maxmem)
    (mkStats 50 50 memused memused 0 0 0 nclients 3 0 1000000)
    4096 100 gc_ratio 0 tree clients events true true [].

(** Key "foo": written at 90, read at 100, no TTL. *)
Definition item_foo : gbItem := mkItem [98; 97; 114] 3 PLAIN 90 100 0 0.

(** Key "fuu": written and last read at 40, TTL 30. *)
Definition item_fuu : gbItem := mkItem [98; 117; 114] 3 PLAIN 40 40 30 0.

(** Key "fee": written and last read at 40, no TTL. *)
Definition item_fee : gbItem := mkItem [98; 101; 114] 3 PLAIN 40 40 0 0.

Definition sample_tree : anode_t :=
  Node [] None
    [Node [102] None
       [Node [101; 101] (Some item_fee) [];
        Node [111; 111] (Some item_foo) [];
        Node [117; 117] (Some item_fuu) []]].

Definition key_fee : list Z := [102; 101; 101].

Definition key_foo : list Z := [102; 111; 111].

Definition key_fuu : list Z := [102; 117; 117].

(** Over the memory budget, with [gc_ratio] 0. *)
Definition pressed_server : gbServer :=
  sample_server 10 1000 2000 0 0 sample_tree [] [].

(** Within the memory budget. *)
Definition calm_server : gbServer :=
  sample_server 10 1000 200 0 3600 sample_tree [] [].

(** Two clients connected, below the cap. *)
Definition busy_server : gbServer :=
  sample_server 10 1000 200 2 3600 sample_tree [7; 5]
    [mkFileEvent 7 GB_READABLE ReadQueryProc;
     mkFileEvent 5 GB_READABLE ReadQueryProc;
     mkFileEvent 3 GB_READABLE AcceptProc].

(** Two clients connected, [max_clients] 2. *)
Definition full_server : gbServer :=
  sample_server 2 1000 200 2 3600 sample_tree [7; 5]
    [mkFileEvent 7 GB_READABLE ReadQueryProc;
     mkFileEvent 5 GB_READABLE ReadQueryProc;
     mkFileEvent 3 GB_READABLE AcceptProc].

Definition sample_config (max_memory cron_period : Z) : gbConfigValues :=
  mkConfig TCP 60 255 1024 2592000 max_memory 256 512 2048 4096 cron_period 3600.

(** A client whose 4 prefix bytes are in, announcing [size] bytes. *)
Definition sized_client (size : Z) : gbClient :=
  mkClient 7 None size 4 0 50 STATUS_WAITING_SIZE 0 [].

Definition no_query (s : gbServer) (c : gbClient) : Z * gbServer * gbClient :=
  (GB_OK, s, c).

(** A client right after accept. *)
Definition fresh_client : gbClient :=
  mkClient 7 None 0 0 0 50 STATUS_WAITING_SIZE 0 [].

(** A reply of 6 bytes, 2 of them sent; the writable event is registered. *)
Definition replying_client (shutdown : Z) : gbClient :=
  mkClient 7 (Some [0; 0; 0; 0; 0; 0]) 6 0 2 50 STATUS_SENDING_REPLY shutdown [].

Definition replying_server : gbServer :=
  sample_server 10 1000 200 2 3600 sample_tree [7; 5]
    [mkFileEvent 7 GB_WRITABLE WriteReplyProc;
     mkFileEvent 7 GB_READABLE ReadQueryProc;
     mkFileEvent 5 GB_READABLE ReadQueryProc;
     mkFileEvent 3 GB_READABLE AcceptProc].

(** ** The command line and the size formatter of gibson.c *)

(** The option loop of [main] (gibson.c, lines 98-127).  [returns] lists
    what the successive calls of [getopt_long] return, as the code [c] and
    [optarg]; an exhausted list stands for [-1].  The result is the code
    passed to [exit] by [gbHelpMenu], or the configuration file to load.
    ['h'] is 104 and ['c'] is 99. *)
Fixpoint main_options {A : Type} (returns : list (Z * A)) (configuration : A)
    : Z + A :=
  match returns with
  | [] => inr configuration
  | (c, optarg) :: rest =>
      if c =? -1 then inr configuration
      else if c =? 0 then main_options rest configuration
      else if c =? 104 then inl 0
      else if c =? 99 then main_options rest optarg
      else inl 1
  end.

(** The configuration file named by a run of options: that of the last
    [-c]. *)
Definition last_config {A : Type} (returns : list (Z * A)) (configuration : A) : A :=
  fold_left (fun acc r => if fst r =? 99 then snd r else acc) returns configuration.

(** The loop of [gbMemFormat] (gibson.c, lines 75-80): [for( ; i < 5 && d >=
    1024; ++i ) d /= 1024.0;].  The loop runs at most five times, which the
    fuel counts.  [d] is a [double]; it is modelled by a rational, which is
    exact for a byte count below 2^53 (the conversion is exact and a
    division by 1024 only changes the exponent). *)
Fixpoint gbMemFormat_loop (fuel i : nat) (d : Q) : nat * Q :=
  match fuel with
  | O => (i, d)
  | S fuel' =>
      if (i <? 5)%nat && Qle_bool 1024 d
      then gbMemFormat_loop fuel' (S i) (d / 1024)%Q
      else (i, d)
  end.

(** [gbMemFormat] (gibson.c, lines 72-83) up to its [sprintf]: the index
    [i] into [suffix], a table of 5 entries ("B" to "TB"), and the value
    [d] that is printed before it. *)
Definition gbMemFormat (used : Z) : nat * Q :=
  gbMemFormat_loop 5 0 (inject_Z used).

(** ** Vocabulary of the further properties *)

(** A client in the middle of a frame: part of the size prefix or part of
    the request is still to come. *)
Definition awaiting_input (c : gbClient) : Prop :=
  (client_status c = STATUS_WAITING_SIZE /\ 0 <= client_read c < sizeof_int) \/
  (client_status c = STATUS_WAITING_BUFFER /\
   0 <= client_read c < client_buffer_size c).

(** The client handed to [gbProcessQuery] once [payload] is in. *)
Definition complete_request (c : gbClient) (payload : list Z) (seen : Z) : gbClient :=
  mkClient (client_fd c) (Some payload) (Z.of_nat (length payload))
    (Z.of_nat (length payload)) (client_wrote c) seen STATUS_SENDING_REPLY
    (client_shutdown c) (client_spill c).

(** What the read handler does with the answer of [gbProcessQuery]. *)
Definition after_query (q : Z * gbServer * gbClient) : gbServer * option gbClient :=
  let '(rc, server, client) := q in
  if negb (rc =? GB_OK)
  then (gbClientDestroy client (gbLog WARNING MsgMalformedQuery server), None)
  else (server, Some client).

(** A client waiting for 5 bytes of request, 2 of them in. *)
Definition loading_client : gbClient :=
  mkClient 7 (Some [1; 0; 0; 0; 0]) 5 2 0 40 STATUS_WAITING_BUFFER 0 [].

(** A client with its buffer allocated and nothing in. *)
Definition ready_client : gbClient :=
  mkClient 7 (Some [0; 0; 0; 0; 0]) 5 0 0 40 STATUS_WAITING_BUFFER 0 [].

(** The write handler called on each writable event of a list, as long as
    the client lives. *)
Fixpoint write_run (ws : list write_result) (server : gbServer) (client : gbClient)
    : gbServer * option gbClient :=
  match ws with
  | [] => (server, Some client)
  | w :: rest =>
      match gbWriteReplyHandler w server client with
      | (server', Some client') => write_run rest server' client'
      | (server', None) => (server', None)
      end
  end.

(** A write that does not end the connection: [EAGAIN], or some bytes
    taken. *)
Definition write_progress (w : write_result) : Prop :=
  match w with
  | WriteError errno => errno = EAGAIN
  | Wrote n => 0 < n
  end.

(** The bytes taken by a list of writes. *)
Fixpoint written (ws : list write_result) : Z :=
  match ws with
  | [] => 0
  | WriteError _ :: rest => written rest
  | Wrote n :: rest => n + written rest
  end.

(** The cron called at each of the times [nows], as long as the process
    runs. *)
Fixpoint cron_run (nows : list Z) (server : gbServer) : outcome gbServer :=
  match nows with
  | [] => Running server
  | now :: rest =>
      r <- gbServerCronHandler now server ;;
      cron_run rest (fst r)
  end.

(** The server with its tick counter moved forward by [j]. *)
Definition later (j : Z) (server : gbServer) : gbServer :=
  set_stats
    (set_crondone (stats_crondone (srv_stats server) + j) (srv_stats server)) server.

(** The writes recorded for [bytes] stored from the offset [off] on. *)
Fixpoint spilled (off : Z) (bytes : list Z) : list (Z * Z) :=
  match bytes with
  | [] => []
  | b :: rest => (off, b) :: spilled (off + 1) rest
  end.

(** What the reactor delivers between two cron ticks: a readable or a
    writable descriptor of a client, a connection to accept, or SIGTERM. *)
Inductive gbEvent :=
| Readable (r : read_result) (nread0 : Z) (client : gbClient)
| Writable (w : write_result) (client : gbClient)
| Acceptable (env : accept_env)
| Terminate.

(** The handler of gibson.c that serves an event, and the server it
    leaves. *)
Definition dispatch
    (gbProcessQuery : gbServer -> gbClient -> Z * gbServer * gbClient)
    (e : gbEvent) (server : gbServer) : gbServer :=
  match e with
  | Readable r nread0 client =>
      fst (gbReadQueryHandler gbProcessQuery r nread0 server client)
  | Writable w client => fst (gbWriteReplyHandler w server client)
  | Acceptable env => fst (gbAcceptHandler env server)
  | Terminate =>
      match gbSignalHandler SIGTERM server with
      | Running s => s
      | _ => server
      end
  end.

Definition dispatch_all
    (gbProcessQuery : gbServer -> gbClient -> Z * gbServer * gbClient)
    (events : list gbEvent) (server : gbServer) : gbServer :=
  fold_left (fun s e => dispatch gbProcessQuery e s) events server.


(** * Properties *)

Lemma frame_refl s : frame s s.
Proof. unfold frame; repeat split. Qed.

Lemma frame_trans s1 s2 s3 : frame s1 s2 -> frame s2 s3 -> frame s1 s3.
Proof. unfold frame; intros H1 H2; intuition congruence. Qed.

Lemma frame_gbLog lvl msg s : frame s (gbLog lvl msg s).
Proof. unfold frame; repeat split. Qed.

Lemma frame_gbDestroyItem s it : frame s (gbDestroyItem s it).
Proof. unfold frame; repeat split. Qed.

Create HintDb gibson.
#[local] Hint Resolve frame_refl frame_gbLog frame_gbDestroyItem : gibson.

Lemma steady_refl s : steady s s.
Proof. unfold steady; repeat split. Qed.

Lemma steady_trans s1 s2 s3 : steady s1 s2 -> steady s2 s3 -> steady s1 s3.
Proof. unfold steady; intros H1 H2; intuition congruence. Qed.

Lemma frame_steady s s' : frame s s' -> steady s s'.
Proof. unfold frame, steady; intuition. Qed.

#[local] Hint Resolve steady_refl frame_steady : gibson.

(** ** The traversal *)

Lemma at_recurse_node h k m ls d lvl :
  at_recurse h (Node k m ls) d lvl =
  let '(m', d1) := h (Node k m ls) lvl d in
  let '(ls', d2) := at_recurse_links h ls d1 (lvl + 1) in
  (Node k m' (filter (fun c => negb (at_is_empty c)) ls'), d2).
Proof.
  simpl. destruct (h (Node k m ls) lvl d) as [m' d1].
  assert (E : forall l d0,
             (fix links_loop (l : list anode_t) (d : gbServer) {struct l}
                : list anode_t * gbServer :=
                match l with
                | [] => ([], d)
                | c :: rest =>
                    let '(c', d') := at_recurse h c d (lvl + 1) in
                    let '(rest', d'') := links_loop rest d' in
                    (c' :: rest', d'')
                end) l d0 = at_recurse_links h l d0 (lvl + 1)).
  { induction l as [|c rest IH]; intros d0; [reflexivity|].
    simpl. destruct (at_recurse h c d0 (lvl + 1)) as [c' d'].
    rewrite IH. reflexivity. }
  rewrite E. reflexivity.
Qed.

Section Traversal.

Variable h : at_recurse_handler.
Variable f : option gbItem -> option gbItem.
Variable origin : gbServer.

Hypothesis h_marker :
  forall n lvl d, frame origin d -> fst (h n lvl d) = f (node_marker n).
Hypothesis h_frame :
  forall n lvl d, frame origin d -> frame origin (snd (h n lvl d)).

Lemma at_recurse_spec t :
  forall d lvl, frame origin d ->
    fst (at_recurse h t d lvl) = at_compact (at_map f t) /\
    frame origin (snd (at_recurse h t d lvl)).
Proof.
  induction t as [k m ls IH] using anode_ind'.
  intros d lvl Hd. rewrite at_recurse_node.
  pose proof (h_marker (Node k m ls) lvl d Hd) as Hm.
  pose proof (h_frame (Node k m ls) lvl d Hd) as Hf.
  destruct (h (Node k m ls) lvl d) as [m' d1]. simpl in Hm, Hf. subst m'.
  assert (L : forall d0, frame origin d0 ->
            fst (at_recurse_links h ls d0 (lvl + 1))
            = map at_compact (map (at_map f) ls) /\
            frame origin (snd (at_recurse_links h ls d0 (lvl + 1)))).
  { clear Hf Hd. induction IH as [|c rest Hc _ IHrest]; intros d0 Hd0.
    - simpl. auto.
    - simpl. destruct (Hc d0 (lvl + 1) Hd0) as [E1 F1].
      destruct (at_recurse h c d0 (lvl + 1)) as [c' d']. simpl in E1, F1.
      destruct (IHrest d' F1) as [E2 F2].
      destruct (at_recurse_links h rest d' (lvl + 1)) as [rest' d''].
      simpl in *. subst. auto. }
  destruct (L d1 Hf) as [E F].
  destruct (at_recurse_links h ls d1 (lvl + 1)) as [ls' d2].
  simpl in *. subst. auto.
Qed.

End Traversal.

Lemma at_items_compact t :
  forall prefix, at_items prefix (at_compact t) = at_items prefix t.
Proof.
  induction t as [k m ls IH] using anode_ind'. intros prefix. simpl.
  f_equal.
  induction IH as [|c rest Hc _ IHrest]; simpl; [reflexivity|].
  rewrite <- (Hc (prefix ++ k)), <- IHrest.
  destruct (at_compact c) as [k' [it|] [|c' ls']]; reflexivity.
Qed.

Lemma at_items_drop del t :
  forall prefix,
    at_items prefix (at_map (drop del) t) =
    filter (fun kv => negb (del (snd kv))) (at_items prefix t).
Proof.
  induction t as [k m ls IH] using anode_ind'. intros prefix. simpl.
  rewrite filter_app. f_equal.
  - destruct m as [it|]; simpl; [|reflexivity].
    destruct (del it); reflexivity.
  - induction IH as [|c rest Hc _ IHrest]; simpl; [reflexivity|].
    rewrite filter_app, Hc, IHrest. reflexivity.
Qed.

(** The items left by a traversal that empties the markers selected by
    [del]. *)
Lemma at_items_swept del t prefix :
  at_items prefix (at_compact (at_map (drop del) t)) =
  filter (fun kv => negb (del (snd kv))) (at_items prefix t).
Proof. rewrite at_items_compact. apply at_items_drop. Qed.

Lemma gbHandleDeadTTLHandler_marker n lvl d :
  fst (gbHandleDeadTTLHandler n lvl d)
  = drop (expired (stats_time (srv_stats d))) (node_marker n).
Proof.
  unfold gbHandleDeadTTLHandler, drop, expired.
  destruct (node_marker n) as [it|]; [|reflexivity].
  destruct ((0 <? item_ttl it) && _); reflexivity.
Qed.

Lemma gbHandleDeadTTLHandler_frame n lvl d :
  frame d (snd (gbHandleDeadTTLHandler n lvl d)).
Proof.
  unfold gbHandleDeadTTLHandler.
  destruct (node_marker n) as [it|]; [|apply frame_refl].
  destruct ((0 <? item_ttl it) && _); simpl; [|apply frame_refl].
  unfold frame; repeat split.
Qed.

Lemma gbMemoryFreeHandler_marker n lvl d :
  fst (gbMemoryFreeHandler n lvl d)
  = drop (idle_out (stats_time (srv_stats d)) (srv_gc_ratio d)) (node_marker n).
Proof.
  unfold gbMemoryFreeHandler, drop, idle_out.
  destruct (node_marker n) as [it|]; simpl; [|reflexivity].
  destruct (negb _ && _); reflexivity.
Qed.

Lemma gbMemoryFreeHandler_frame n lvl d :
  frame d (snd (gbMemoryFreeHandler n lvl d)).
Proof.
  unfold gbMemoryFreeHandler.
  destruct (node_marker n) as [it|]; simpl; [|apply frame_refl].
  destruct (negb _ && _); simpl; [|apply frame_refl].
  unfold frame; repeat split.
Qed.

(** The TTL pass rewrites the tree by [expired]. *)
Lemma cron_ttl_block_spec s :
  srv_tree (cron_ttl_block s)
  = at_compact (at_map (drop (expired (stats_time (srv_stats s)))) (srv_tree s))
  /\ steady s (cron_ttl_block s).
Proof.
  unfold cron_ttl_block.
  destruct (@at_recurse_spec gbHandleDeadTTLHandler
              (drop (expired (stats_time (srv_stats s)))) s) with
    (t := srv_tree s) (d := s) (lvl := 0) as [E F].
  - intros n lvl d Hd. rewrite gbHandleDeadTTLHandler_marker.
    destruct Hd as (_ & _ & _ & Ht & _). rewrite Ht. reflexivity.
  - intros n lvl d Hd. eapply frame_trans; [exact Hd|].
    apply gbHandleDeadTTLHandler_frame.
  - apply frame_refl.
  - destruct (at_recurse gbHandleDeadTTLHandler (srv_tree s) s 0) as [t s1].
    simpl in E, F. subst t. apply frame_steady in F.
    destruct (0 <? _); simpl; split; auto.
Qed.

(** The eviction pass, under pressure, rewrites the tree by [idle_out]. *)
Lemma cron_memory_block_spec s :
  limits_maxmem (srv_limits s) < stats_memused (srv_stats s) ->
  srv_tree (cron_memory_block s)
  = at_compact
      (at_map (drop (idle_out (stats_time (srv_stats s)) (srv_gc_ratio s)))
         (srv_tree s)).
Proof.
  intros Hp. unfold cron_memory_block.
  apply Z.ltb_lt in Hp. rewrite Hp.
  set (s0 := gbLog WARNING (MsgMaxMemoryExhausted (srv_gc_ratio s)) s).
  destruct (@at_recurse_spec gbMemoryFreeHandler
              (drop (idle_out (stats_time (srv_stats s)) (srv_gc_ratio s))) s0) with
    (t := srv_tree s0) (d := s0) (lvl := 0) as [E F].
  - intros n lvl d Hd. rewrite gbMemoryFreeHandler_marker.
    destruct Hd as (_ & _ & _ & Ht & _ & _ & _ & Hg & _). rewrite Ht, Hg. reflexivity.
  - intros n lvl d Hd. eapply frame_trans; [exact Hd|].
    apply gbMemoryFreeHandler_frame.
  - apply frame_refl.
  - destruct (at_recurse gbMemoryFreeHandler (srv_tree s0) s0 0) as [t s1].
    simpl in E. subst t. reflexivity.
Qed.

Lemma cron_memory_block_steady s : steady s (cron_memory_block s).
Proof.
  unfold cron_memory_block.
  destruct (_ <? _); [|apply steady_refl].
  set (s0 := gbLog WARNING (MsgMaxMemoryExhausted (srv_gc_ratio s)) s).
  destruct (@at_recurse_spec gbMemoryFreeHandler
              (drop (idle_out (stats_time (srv_stats s)) (srv_gc_ratio s))) s0) with
    (t := srv_tree s0) (d := s0) (lvl := 0) as [_ F].
  - intros n lvl d Hd. rewrite gbMemoryFreeHandler_marker.
    destruct Hd as (_ & _ & _ & Ht & _ & _ & _ & Hg & _). rewrite Ht, Hg. reflexivity.
  - intros n lvl d Hd. eapply frame_trans; [exact Hd|].
    apply gbMemoryFreeHandler_frame.
  - apply frame_refl.
  - destruct (at_recurse gbMemoryFreeHandler (srv_tree s0) s0 0) as [t s1].
    simpl in F. apply frame_steady in F. exact F.
Qed.

Lemma cron_stats_block_steady s : steady s (cron_stats_block s).
Proof. unfold steady; repeat split. Qed.

Lemma cron_memory_block_idle s :
  stats_memused (srv_stats s) <= limits_maxmem (srv_limits s) ->
  cron_memory_block s = s.
Proof.
  intros H. unfold cron_memory_block.
  destruct (Z.ltb_spec (limits_maxmem (srv_limits s)) (stats_memused (srv_stats s)));
    [lia|reflexivity].
Qed.

(** With a positive period no [CRON_EVERY] divides by zero. *)
Lemma CRON_EVERY_due ms s block :
  0 < srv_cronperiod s ->
  CRON_EVERY ms s block = Running (if cron_due ms s then block s else s).
Proof.
  intros Hp. unfold CRON_EVERY, cron_due.
  destruct (Z.leb_spec ms (srv_cronperiod s)) as [Hle|Hgt]; [reflexivity|].
  assert (Hq : 0 < Z.quot ms (srv_cronperiod s)).
  { apply Z.quot_str_pos. lia. }
  destruct (Z.eqb_spec (srv_cronperiod s) 0); [lia|].
  destruct (Z.eqb_spec (Z.quot ms (srv_cronperiod s)) 0); [lia|].
  simpl. destruct (_ =? 0); reflexivity.
Qed.

Lemma gated_steady ms block s :
  (forall x, steady x (block x)) -> steady s (gated ms block s).
Proof. intros H. unfold gated. destruct (cron_due ms s); auto with gibson. Qed.

(** A tick of a server that is not shutting down, with a positive period:
    the three gated blocks in order, then the tick counter. *)
Lemma gbServerCronHandler_running now server :
  srv_shutdown server = 0 ->
  0 < srv_cronperiod server ->
  let s3 := gated 15000 cron_stats_block
              (gated 5000 cron_memory_block
                 (gated 15000 cron_ttl_block (tick now server))) in
  gbServerCronHandler now server
  = Running (set_stats (set_crondone (stats_crondone (srv_stats server) + 1)
                          (srv_stats s3)) s3,
             srv_cronperiod server)
  /\ steady (tick now server) s3.
Proof.
  intros Hs Hp s3.
  assert (S1 : steady (tick now server) (gated 15000 cron_ttl_block (tick now server))).
  { apply gated_steady. intros x. apply cron_ttl_block_spec. }
  assert (S2 : steady (tick now server)
                 (gated 5000 cron_memory_block
                    (gated 15000 cron_ttl_block (tick now server)))).
  { eapply steady_trans; [exact S1|]. apply gated_steady.
    apply cron_memory_block_steady. }
  assert (S3 : steady (tick now server) s3).
  { eapply steady_trans; [exact S2|]. apply gated_steady.
    apply cron_stats_block_steady. }
  split; [|exact S3].
  unfold gbServerCronHandler. fold (tick now server).
  replace (srv_shutdown (tick now server)) with 0 by (symmetry; exact Hs).
  simpl negb. cbv iota.
  rewrite CRON_EVERY_due by exact Hp. cbn [bind]. fold (gated 15000 cron_ttl_block (tick now server)).
  rewrite CRON_EVERY_due by (destruct S1 as (_ & _ & _ & _ & E & _); rewrite E; exact Hp).
  cbn [bind].
  fold (gated 5000 cron_memory_block (gated 15000 cron_ttl_block (tick now server))).
  rewrite CRON_EVERY_due by (destruct S2 as (_ & _ & _ & _ & E & _); rewrite E; exact Hp).
  cbn [bind].
  match goal with
  | |- _ = ?rhs =>
      change (Running (set_stats (set_crondone (stats_crondone (srv_stats s3) + 1)
                                    (srv_stats s3)) s3, srv_cronperiod s3) = rhs)
  end.
  destruct S3 as (_ & _ & Ec & _ & Ep & _).
  rewrite Ec, Ep. reflexivity.
Qed.

(** ** C1: pressure eviction *)

(** C1, as stated, fails: with [gc_ratio] 0 and the budget exceeded, the
    eviction pass of the tick at time 100 runs and evicts the item of key
    "fee" (idle for 60 s), and the item of key "foo", last accessed at 100
    (idle age 0, which is at least [gc_ratio]), is still in the trie after
    the tick. *)
Lemma pressure_eviction_keeps_idle_zero :
  limits_maxmem (srv_limits pressed_server) < stats_memused (srv_stats pressed_server)
  /\ srv_gc_ratio pressed_server = 0
  /\ In (key_foo, item_foo) (at_items [] (srv_tree pressed_server))
  /\ 100 - item_last_access_time item_foo >= srv_gc_ratio pressed_server
  /\ match gbServerCronHandler 100 pressed_server with
     | Running (after, _) =>
         In (Log WARNING (MsgMaxMemoryExhausted 0)) (srv_trace after)
         /\ In (key_foo, item_foo) (at_items [] (srv_tree after))
         /\ In (Log DEBUG (MsgOOMRemoving 60)) (srv_trace after)
         /\ ~ In (key_fee, item_fee) (at_items [] (srv_tree after))
     | _ => False
     end.
Proof.
  vm_compute. repeat split; try discriminate; auto 10.
  intros [H|[]]. discriminate H.
Qed.

(** C1, amended: when the pass is due and [mem_used > max_memory], it runs
    and deletes exactly the items whose idle age [stats.time -
    last_access_time] is non-zero and at least [gc_ratio]; every other
    item, in particular one of idle age 0, stays as it is.  Within the
    budget the pass changes nothing. *)
Theorem pressure_eviction_deletes_idle_items (server : gbServer) :
  0 < srv_cronperiod server ->
  cron_due 5000 server = true ->
  let now := stats_time (srv_stats server) in
  let evicted := cron_memory_block server in
  CRON_EVERY 5000 server cron_memory_block = Running evicted /\
  (limits_maxmem (srv_limits server) < stats_memused (srv_stats server) ->
   srv_tree evicted
   = at_compact
       (at_map (drop (idle_out now (srv_gc_ratio server))) (srv_tree server)) /\
   at_items [] (srv_tree evicted)
   = filter (fun kv => negb (idle_out now (srv_gc_ratio server) (snd kv)))
       (at_items [] (srv_tree server)) /\
   forall key it,
     In (key, it) (at_items [] (srv_tree evicted)) <->
     In (key, it) (at_items [] (srv_tree server)) /\
     ~ (now - item_last_access_time it <> 0 /\
        now - item_last_access_time it >= srv_gc_ratio server)) /\
  (stats_memused (srv_stats server) <= limits_maxmem (srv_limits server) ->
   evicted = server).
Proof.
  intros Hp Hdue now evicted.
  split; [|split].
  - rewrite CRON_EVERY_due by exact Hp. rewrite Hdue. reflexivity.
  - intros Hmem.
    pose proof (cron_memory_block_spec server Hmem) as E.
    fold now evicted in E.
    split; [exact E|]. split.
    + rewrite E. apply at_items_swept.
    + intros key it. rewrite E, at_items_swept, filter_In. simpl.
      unfold idle_out. apply and_iff_compat_l.
      rewrite negb_true_iff, andb_false_iff, negb_false_iff, Z.eqb_eq, Z.leb_gt.
      lia.
  - intros Hmem. apply cron_memory_block_idle. exact Hmem.
Qed.

Lemma pressure_eviction_deletes_idle_items_witness :
  (0 < srv_cronperiod (tick 100 pressed_server) /\
   cron_due 5000 (tick 100 pressed_server) = true /\
   limits_maxmem (srv_limits (tick 100 pressed_server))
   < stats_memused (srv_stats (tick 100 pressed_server))) /\
  at_items [] (srv_tree (cron_memory_block (tick 100 pressed_server)))
  = [(key_foo, item_foo)].
Proof.
  split; [repeat split|].
  destruct (pressure_eviction_deletes_idle_items (tick 100 pressed_server))
    as (_ & H & _); [reflexivity|reflexivity|].
  destruct H as (_ & E & _); [reflexivity|].
  rewrite E. reflexivity.
Defined.

(** ** C2: TTL sweep *)

(** C2: on a tick at time [now] on which [CRON_EVERY( 15000 )] is due, the
    TTL pass runs with [stats.time = now], visits every node of the trie and
    deletes exactly the items with [ttl > 0 && now - created_at >= ttl]; the
    items with [ttl = 0] or a younger age stay in place, unchanged and in
    order.  When the memory budget is not exceeded afterwards, this is the
    trie the tick leaves. *)
Theorem ttl_sweep_deletes_exactly_expired (now : Z) (server : gbServer) :
  srv_shutdown server = 0 ->
  0 < srv_cronperiod server ->
  cron_due 15000 server = true ->
  let swept := cron_ttl_block (tick now server) in
  CRON_EVERY 15000 (tick now server) cron_ttl_block = Running swept /\
  srv_tree swept = at_compact (at_map (drop (expired now)) (srv_tree server)) /\
  at_items [] (srv_tree swept)
  = filter (fun kv => negb (expired now (snd kv))) (at_items [] (srv_tree server)) /\
  (forall key it,
     In (key, it) (at_items [] (srv_tree swept)) <->
     In (key, it) (at_items [] (srv_tree server)) /\
     ~ (item_ttl it > 0 /\ now - item_time it >= item_ttl it)) /\
  (stats_memused (srv_stats swept) <= limits_maxmem (srv_limits swept) ->
   exists after,
     gbServerCronHandler now server = Running (after, srv_cronperiod server) /\
     srv_tree after = srv_tree swept).
Proof.
  intros Hs Hp Hdue swept.
  assert (Hdue' : cron_due 15000 (tick now server) = true) by exact Hdue.
  destruct (cron_ttl_block_spec (tick now server)) as [E St].
  change (stats_time (srv_stats (tick now server))) with now in E.
  change (srv_tree (tick now server)) with (srv_tree server) in E.
  fold swept in E, St.
  split; [|split; [exact E|split; [|split]]].
  - rewrite CRON_EVERY_due by exact Hp. rewrite Hdue'. reflexivity.
  - rewrite E. apply at_items_swept.
  - intros key it. rewrite E, at_items_swept, filter_In. simpl.
    unfold expired. apply and_iff_compat_l.
    rewrite negb_true_iff, andb_false_iff, Z.ltb_ge, Z.leb_gt. lia.
  - intros Hmem.
    destruct (gbServerCronHandler_running now server Hs Hp) as [R _].
    eexists. split; [exact R|].
    cbn [srv_tree set_stats].
    unfold gated at 3. rewrite Hdue'. fold swept.
    assert (M : gated 5000 cron_memory_block swept = swept).
    { unfold gated. destruct (cron_due 5000 swept); [|reflexivity].
      apply cron_memory_block_idle. exact Hmem. }
    rewrite M. unfold gated. destruct (cron_due 15000 swept); reflexivity.
Qed.

Lemma ttl_sweep_deletes_exactly_expired_witness :
  (srv_shutdown calm_server = 0 /\ 0 < srv_cronperiod calm_server
   /\ cron_due 15000 calm_server = true) /\
  at_items [] (srv_tree (cron_ttl_block (tick 100 calm_server)))
  = [(key_fee, item_fee); (key_foo, item_foo)].
Proof.
  split; [repeat split|].
  destruct (ttl_sweep_deletes_exactly_expired 100 calm_server)
    as (_ & _ & E & _); [reflexivity|reflexivity|reflexivity|].
  rewrite E. reflexivity.
Defined.

(** ** C3: exit status on signals *)

(** C3, as stated, fails: after SIGTERM has set the shutdown flag, the next
    cron tick runs the destructor path and the process exits with status
    0. *)
Lemma sigterm_shutdown_exits_with_zero :
  match gbSignalHandler SIGTERM busy_server with
  | Running flagged =>
      srv_shutdown flagged = 1 /\
      match gbServerCronHandler 120 flagged with
      | Exited code final =>
          exit_status code = 0 /\ srv_clients final = [] /\
          srv_buffers final = false /\ srv_tree final = at_empty /\
          srv_running final = false
      | _ => False
      end
  | _ => False
  end.
Proof. vm_compute. repeat split. Qed.

Lemma gbObjectDestroyHandler_frame t s lvl :
  frame s (snd (at_recurse gbObjectDestroyHandler t s lvl)).
Proof.
  refine (proj2 (@at_recurse_spec gbObjectDestroyHandler (fun m => m) s _ _ t s lvl _)).
  - intros n l d _. unfold gbObjectDestroyHandler.
    destruct (node_marker n); reflexivity.
  - intros n l d Hd. eapply frame_trans; [exact Hd|].
    unfold gbObjectDestroyHandler.
    destruct (node_marker n); simpl; auto with gibson.
  - apply frame_refl.
Qed.

Lemma gbServerDestroy_final server :
  srv_clients (gbServerDestroy server) = [] /\
  srv_buffers (gbServerDestroy server) = false /\
  srv_tree (gbServerDestroy server) = at_empty /\
  srv_events (gbServerDestroy server) = [] /\
  srv_running (gbServerDestroy server) = false.
Proof.
  unfold gbServerDestroy.
  match goal with
  | |- context [at_recurse gbObjectDestroyHandler ?t ?s 0] =>
      pose proof (gbObjectDestroyHandler_frame t s 0) as F;
      destruct (at_recurse gbObjectDestroyHandler t s 0) as [t' s4]
  end.
  simpl in F. destruct F as (_ & _ & _ & _ & _ & _ & _ & _ & _ & _ & Hc & _ & Hb & _).
  cbn. rewrite Hc, Hb. repeat apply conj; reflexivity.
Qed.

(** C3, amended: a crash signal (SIGSEGV, SIGILL, SIGFPE, SIGABRT) makes
    the handler exit with [exit(-1)], status 255.  SIGTERM only sets the
    shutdown flag; the next cron tick then runs the destructor path (all
    clients destroyed, scratch buffers freed, trie freed, reactor stopped)
    and the process exits with status 0. *)
Theorem signal_exit_statuses (sig : gbSignal) (server : gbServer) (now : Z) :
  match gbSignalHandler sig server with
  | Running flagged =>
      sig = SIGTERM /\ srv_shutdown flagged = 1 /\
      gbServerCronHandler now flagged = Exited 0 (gbServerDestroy (tick now flagged)) /\
      exit_status 0 = 0 /\
      srv_clients (gbServerDestroy (tick now flagged)) = [] /\
      srv_buffers (gbServerDestroy (tick now flagged)) = false /\
      srv_tree (gbServerDestroy (tick now flagged)) = at_empty /\
      srv_events (gbServerDestroy (tick now flagged)) = [] /\
      srv_running (gbServerDestroy (tick now flagged)) = false
  | Exited code _ => sig <> SIGTERM /\ code = -1 /\ exit_status code = 255
  | Fault => False
  end.
Proof.
  destruct sig; cbn [gbSignalHandler];
    try (split; [discriminate|split; reflexivity]).
  split; [reflexivity|]. split; [reflexivity|]. split; [reflexivity|].
  split; [reflexivity|]. apply gbServerDestroy_final.
Qed.

(** ** C8: the start-up clamp of [max_memory] *)

(** C8: when the configured [max_memory] exceeds [zmem_available()], the
    limit in force after start-up is half of the available memory, which
    does not exceed it; otherwise it is the configured value. *)
Theorem main_clamps_max_memory (cfg : gbConfigValues) (fd now memavail : Z) :
  0 <= memavail ->
  let server := main cfg fd now memavail in
  (memavail < cfg_max_memory cfg ->
   limits_maxmem (srv_limits server) = Z.quot memavail 2 /\
   limits_maxmem (srv_limits server) <= memavail) /\
  (cfg_max_memory cfg <= memavail ->
   limits_maxmem (srv_limits server) = cfg_max_memory cfg).
Proof.
  intros Hm server. unfold server, main. cbn [srv_stats stats_memavail srv_limits limits_maxmem].
  destruct (Z.ltb_spec memavail (cfg_max_memory cfg)) as [Hlt|Hge].
  - split; [|lia]. intros _. cbn. split; [reflexivity|].
    rewrite Z.quot_div_nonneg by lia.
    apply Z.div_le_upper_bound; lia.
  - split; [lia|]. intros _. reflexivity.
Qed.

Lemma main_clamps_max_memory_witness :
  0 <= 1001 /\
  limits_maxmem (srv_limits (main (sample_config 4096 100) 3 50 1001)) = 500 /\
  limits_maxmem (srv_limits (main (sample_config 800 100) 3 50 1001)) = 800.
Proof.
  split; [lia|]. split.
  - destruct (main_clamps_max_memory (sample_config 4096 100) 3 50 1001) as [H _];
      [lia|].
    destruct H as [E _]; [reflexivity|]. exact E.
  - destruct (main_clamps_max_memory (sample_config 800 100) 3 50 1001) as [_ H];
      [lia|].
    apply H. cbn. lia.
Defined.

(** ** C10: the gate [CRON_EVERY] *)

(** C10: with a positive cron period, the block under [CRON_EVERY(N)] runs
    on a tick exactly when [N <= cron_period] or [N / cron_period] (integer
    division) divides [stats.crondone]; a tick that completes increments
    [stats.crondone] by one; and on the first tick after start-up, where
    [stats.crondone] is 0, the TTL sweep, the pressure check and the
    statistics line all run. *)
Theorem cron_every_gate (N : Z) (server : gbServer) (block : gbServer -> gbServer)
    (cfg : gbConfigValues) (fd started memavail now : Z) :
  0 < srv_cronperiod server ->
  0 < cfg_cron_period cfg ->
  (CRON_EVERY N server block
   = Running (if cron_due N server then block server else server)) /\
  (cron_due N server = true <->
   N <= srv_cronperiod server \/
   (Z.quot N (srv_cronperiod server) | stats_crondone (srv_stats server))) /\
  (srv_shutdown server = 0 ->
   exists after,
     gbServerCronHandler now server = Running (after, srv_cronperiod server) /\
     stats_crondone (srv_stats after) = stats_crondone (srv_stats server) + 1) /\
  (let first := main cfg fd started memavail in
   let s3 := cron_stats_block (cron_memory_block (cron_ttl_block (tick now first))) in
   stats_crondone (srv_stats first) = 0 /\
   cron_due N first = true /\
   gbServerCronHandler now first
   = Running (set_stats (set_crondone 1 (srv_stats s3)) s3, cfg_cron_period cfg)).
Proof.
  intros Hp Hc.
  split; [apply CRON_EVERY_due; exact Hp|].
  split; [|split].
  - unfold cron_due. rewrite orb_true_iff, Z.leb_le, Z.eqb_eq.
    destruct (Z_le_gt_dec N (srv_cronperiod server)) as [Hle|Hgt].
    + split; intros _; left; exact Hle.
    + assert (Hq : Z.quot N (srv_cronperiod server) <> 0).
      { apply Z.neq_sym, Z.lt_neq, Z.quot_str_pos. lia. }
      rewrite (Z.rem_divide _ _ Hq). reflexivity.
  - intros Hs.
    destruct (gbServerCronHandler_running now server Hs Hp) as [R _].
    eexists. split; [exact R|]. reflexivity.
  - intros first s3.
    assert (Hfp : srv_cronperiod first = cfg_cron_period cfg).
    { unfold first, main. cbn [srv_stats stats_memavail srv_limits limits_maxmem].
      destruct (_ <? _); reflexivity. }
    assert (Hfs : srv_shutdown first = 0).
    { unfold first, main. cbn [srv_stats stats_memavail srv_limits limits_maxmem].
      destruct (_ <? _); reflexivity. }
    assert (Hfc : stats_crondone (srv_stats first) = 0).
    { unfold first, main. cbn [srv_stats stats_memavail srv_limits limits_maxmem].
      destruct (_ <? _); reflexivity. }
    assert (Hzero : forall ms s, stats_crondone (srv_stats s) = 0 -> cron_due ms s = true).
    { intros ms s E. unfold cron_due. rewrite E.
      destruct (Z.quot ms (srv_cronperiod s)); simpl; apply orb_true_r. }
    split; [exact Hfc|]. split; [apply Hzero; exact Hfc|].
    assert (Hp' : 0 < srv_cronperiod first) by (rewrite Hfp; exact Hc).
    destruct (gbServerCronHandler_running now first Hfs Hp') as [R _].
    rewrite R, Hfc, Hfp.
    assert (T0 : stats_crondone (srv_stats (tick now first)) = 0) by exact Hfc.
    destruct (cron_ttl_block_spec (tick now first)) as [_ (_ & _ & C1 & _)].
    rewrite T0 in C1.
    destruct (cron_memory_block_steady (cron_ttl_block (tick now first)))
      as (_ & _ & C2 & _).
    rewrite C1 in C2.
    assert (G : gated 15000 cron_stats_block
                  (gated 5000 cron_memory_block
                     (gated 15000 cron_ttl_block (tick now first))) = s3).
    { unfold gated at 3. rewrite (Hzero 15000 _ T0).
      unfold gated at 2. rewrite (Hzero 5000 _ C1).
      unfold gated. rewrite (Hzero 15000 _ C2). reflexivity. }
    rewrite G. reflexivity.
Qed.

Lemma cron_every_gate_witness :
  (0 < srv_cronperiod calm_server /\ 0 < cfg_cron_period (sample_config 800 100)) /\
  cron_due 15000 calm_server = true /\
  cron_due 5000 (main (sample_config 800 100) 3 50 1001) = true.
Proof.
  split; [split; reflexivity|].
  split.
  - apply (proj1 (proj2 (cron_every_gate 15000 calm_server (fun s => s)
                           (sample_config 800 100) 3 50 1001 51
                           eq_refl eq_refl))).
    right. exists 0. reflexivity.
  - exact (proj1 (proj2 (proj2 (proj2 (proj2 (cron_every_gate 5000 calm_server
                           (fun s => s) (sample_config 800 100) 3 50 1001 51
                           eq_refl eq_refl)))))).
Defined.

(** ** C4: the client cap *)

(** Past the cap the descriptor is closed and the drop is logged, and yet
    the handler goes on to set the client up on that descriptor. *)
Lemma gbAcceptHandler_over_cap (server : gbServer) (fd : Z) :
  fd <> -1 ->
  limits_maxclients (srv_limits server) <= stats_nclients (srv_stats server) ->
  let '(after, client) := gbAcceptHandler (mkAccept fd true) server in
  In (Close fd) (srv_trace after) /\
  (exists c, client = Some c /\ client_fd c = fd) /\
  In fd (srv_clients after) /\
  registered fd GB_READABLE after = true /\
  stats_nclients (srv_stats after) = stats_nclients (srv_stats server) + 1.
Proof.
  intros Hfd Hcap. unfold gbAcceptHandler. cbn [acc_client_fd acc_event_ok].
  unfold GB_ERR.
  destruct (Z.eqb_spec fd (-1)) as [E|_]; [contradiction|].
  apply Z.leb_le in Hcap. rewrite Hcap. cbn [negb].
  cbn. rewrite Z.eqb_refl. cbn.
  repeat apply conj; auto.
  - apply in_or_app. left. apply in_or_app. left. apply in_or_app. right. left. reflexivity.
  - eexists. split; reflexivity.
Qed.

(** C4 at a concrete state: with 2 clients out of 2 allowed, accepting
    descriptor 9 closes it, and still creates the client object (3 clients
    counted) and registers the readable event for it. *)
Theorem accept_over_cap_still_sets_up_client :
  limits_maxclients (srv_limits full_server) <= stats_nclients (srv_stats full_server)
  /\ match gbAcceptHandler (mkAccept 9 true) full_server with
     | (after, Some client) =>
         In (Close 9) (srv_trace after) /\
         In (Log WARNING (MsgDroppingConnection 2 2)) (srv_trace after) /\
         client_fd client = 9 /\
         srv_clients after = [9; 7; 5] /\
         stats_nclients (srv_stats after) = 3 /\
         In (mkFileEvent 9 GB_READABLE ReadQueryProc) (srv_events after)
     | (_, None) => False
     end.
Proof. vm_compute. repeat split; try discriminate; auto. Qed.

(** ** C5: validation of the size prefix *)

Lemma length_zmalloc size : 0 <= size -> Z.of_nat (length (zmalloc size)) = size.
Proof. intros H. unfold zmalloc. rewrite repeat_length. apply Z2Nat.id, H. Qed.

(** C5: once the 4 bytes of the prefix are in ([client->read] has reached
    [sizeof(int)]) the handler drops the client exactly when the size is
    below [sizeof(short)] or above [max_request_size], without reading;
    otherwise it allocates a buffer of exactly that size, the client is in
    [STATUS_WAITING_BUFFER] with its read count back to 0, and the handler
    goes on to read into that buffer. *)
Theorem size_prefix_validation
    (gbProcessQuery : gbServer -> gbClient -> Z * gbServer * gbClient)
    (r : read_result) (nread0 : Z) (server : gbServer) (client : gbClient)
    (l : read_locals) :
  client_status client = STATUS_WAITING_SIZE ->
  sizeof_int <= client_read client ->
  let size := client_buffer_size client in
  let invalid :=
    size < sizeof_short \/ limits_maxrequestsize (srv_limits server) < size in
  let ready :=
    set_buffer (Some (zmalloc size))
      (set_read_status 0 STATUS_WAITING_BUFFER client) in
  (snd (read_size_block server client l) = None <-> invalid) /\
  (invalid ->
   gbReadQueryHandler gbProcessQuery r nread0 server client
   = (gbClientDestroy client
        (gbLog WARNING (MsgRequestSizeInvalid size) server), None)) /\
  (~ invalid ->
   read_size_block server client l
   = (server, Some (ready, mkLocals (l_p l) (l_nread l)
                             (sizeof_int - client_read client))) /\
   client_status ready = STATUS_WAITING_BUFFER /\
   client_read ready = 0 /\
   client_buffer_size ready = size /\
   (exists buf, client_buffer ready = Some buf /\ Z.of_nat (length buf) = size) /\
   gbReadQueryHandler gbProcessQuery r nread0 server client
   = read_continue gbProcessQuery r server ready
       (mkLocals PNull nread0 (sizeof_int - client_read client))).
Proof.
  intros Hst Hrd size invalid ready.
  assert (Hto : (0 <? sizeof_int - client_read client) = false)
    by (apply Z.ltb_ge; lia).
  assert (Hdec : (limits_maxrequestsize (srv_limits server) <? size)
                 || (size <? sizeof_short) = true <-> invalid).
  { unfold invalid. rewrite orb_true_iff, !Z.ltb_lt. tauto. }
  assert (Hblock : forall l0,
    read_size_block server client l0 =
    if (limits_maxrequestsize (srv_limits server) <? size) || (size <? sizeof_short)
    then (gbClientDestroy client
            (gbLog WARNING (MsgRequestSizeInvalid size) server), None)
    else (server, Some (ready, mkLocals (l_p l0) (l_nread l0)
                                 (sizeof_int - client_read client)))).
  { intros l0. unfold read_size_block. rewrite Hst, Hto. reflexivity. }
  split; [|split].
  - rewrite Hblock, <- Hdec.
    destruct (_ || _); simpl; split; intros H; try reflexivity; discriminate H.
  - intros Hinv. apply Hdec in Hinv.
    unfold gbReadQueryHandler. rewrite Hblock, Hinv. reflexivity.
  - intros Hval.
    assert (Hf : (limits_maxrequestsize (srv_limits server) <? size)
                 || (size <? sizeof_short) = false).
    { apply not_true_is_false. intros E. apply Hdec in E. contradiction. }
    split; [rewrite Hblock, Hf; reflexivity|].
    split; [reflexivity|]. split; [reflexivity|]. split; [reflexivity|].
    split.
    + exists (zmalloc size). split; [reflexivity|].
      apply length_zmalloc. unfold invalid, sizeof_short in Hval. lia.
    + unfold gbReadQueryHandler. rewrite Hblock, Hf. reflexivity.
Qed.

Lemma size_prefix_validation_witness :
  (client_status (sized_client 1) = STATUS_WAITING_SIZE /\
   sizeof_int <= client_read (sized_client 1)) /\
  snd (gbReadQueryHandler no_query (ReadAvailable [1; 2; 3]) 0 busy_server
         (sized_client 1)) = None /\
  snd (read_size_block busy_server (sized_client 2) (mkLocals PNull 0 0)) <> None /\
  snd (read_size_block busy_server (sized_client 1025) (mkLocals PNull 0 0)) = None.
Proof.
  split; [split; [reflexivity|vm_compute; discriminate]|].
  split; [|split].
  - destruct (size_prefix_validation no_query (ReadAvailable [1; 2; 3]) 0
                busy_server (sized_client 1) (mkLocals PNull 0 0))
      as (_ & H & _); [reflexivity|vm_compute; discriminate|].
    rewrite H; [reflexivity|]. left. reflexivity.
  - destruct (size_prefix_validation no_query (ReadAvailable [1; 2; 3]) 0
                busy_server (sized_client 2) (mkLocals PNull 0 0))
      as (_ & _ & H); [reflexivity|vm_compute; discriminate|].
    destruct H as [E _].
    + intros [H|H]; vm_compute in H; discriminate H.
    + rewrite E. discriminate.
  - apply (size_prefix_validation no_query (ReadAvailable [1; 2; 3]) 0
             busy_server (sized_client 1025) (mkLocals PNull 0 0));
      [reflexivity|vm_compute; discriminate|].
    right. reflexivity.
Defined.

(** ** C6: partial reads of the size prefix *)

(** The target of the next read, with [k] prefix bytes in: [&client->
    buffer_size + client->read] advances by whole [int]s, so the byte
    offset from the field is [sizeof(int) * k]. *)
Lemma size_prefix_pointer (server : gbServer) (client : gbClient) (l : read_locals) :
  client_status client = STATUS_WAITING_SIZE ->
  client_read client < sizeof_int ->
  read_size_block server client l
  = (server, Some (client, mkLocals (PSize (sizeof_int * client_read client))
                             (l_nread l) (sizeof_int - client_read client))).
Proof.
  intros Hst Hrd. unfold read_size_block. rewrite Hst.
  destruct (Z.ltb_spec 0 (sizeof_int - client_read client)); [reflexivity|lia].
Qed.

(** Bytes stored from an offset past the field leave the field as it
    is. *)
Lemma store_size_past_field bytes :
  forall off c, sizeof_int <= off ->
    client_buffer_size (store_size off bytes c) = client_buffer_size c /\
    client_read (store_size off bytes c) = client_read c.
Proof.
  induction bytes as [|b rest IH]; intros off c Hoff; [split; reflexivity|].
  cbn [store_size].
  destruct (Z.ltb_spec off sizeof_int) as [Hlt|_]; [lia|].
  rewrite andb_false_r.
  destruct (IH (off + 1)
              (set_size_spill (client_buffer_size c) (client_spill c ++ [(off, b)]) c))
    as [E1 E2]; [lia|].
  rewrite E1, E2. split; reflexivity.
Qed.

(** The prefix 10 01 00 00 (272, little-endian) in one read lands in the
    field. *)
Lemma whole_size_prefix_is_stored
    (gbProcessQuery : gbServer -> gbClient -> Z * gbServer * gbClient) :
  match gbReadQueryHandler gbProcessQuery (ReadAvailable [16; 1; 0; 0]) 0
          busy_server fresh_client with
  | (_, Some c) =>
      client_read c = 4 /\ client_buffer_size c = le_value [16; 1; 0; 0] /\
      client_spill c = []
  | (_, None) => False
  end.
Proof. vm_compute. repeat split. Qed.

(** C6 at a concrete input: the prefix 10 01 00 00 arrives as one byte, then
    three.  With one byte in, the next read is aimed at byte offset 4 from
    the field, not 1: the three bytes land past the field, and after 4
    bytes in total the field holds 16, not 272. *)
Theorem split_size_prefix_is_misplaced
    (gbProcessQuery : gbServer -> gbClient -> Z * gbServer * gbClient) :
  match gbReadQueryHandler gbProcessQuery (ReadAvailable [16]) 0
          busy_server fresh_client with
  | (s1, Some c1) =>
      client_read c1 = 1 /\
      snd (read_size_block s1 c1 (mkLocals PNull 0 0))
      = Some (c1, mkLocals (PSize 4) 0 3) /\
      match gbReadQueryHandler gbProcessQuery (ReadAvailable [1; 0; 0]) 0 s1 c1 with
      | (_, Some c2) =>
          client_status c2 = STATUS_WAITING_SIZE /\
          client_read c2 = 4 /\
          client_buffer_size c2 = 16 /\
          client_spill c2 = [(4, 1); (5, 0); (6, 0)] /\
          le_value [16; 1; 0; 0] = 272
      | (_, None) => False
      end
  | (_, None) => False
  end.
Proof. vm_compute. repeat split. Qed.

(** ** C7: completion of a reply *)

Lemma registered_gbDeleteFileEvent fd mask server :
  registered fd mask (gbDeleteFileEvent fd mask server) = false.
Proof.
  unfold registered, gbDeleteFileEvent. cbn [srv_events set_events].
  induction (srv_events server) as [|e es IH]; [reflexivity|].
  cbn [filter].
  destruct ((fe_fd e =? fd) && (fe_mask e =? mask)) eqn:E; cbn [negb].
  - exact IH.
  - cbn [existsb]. rewrite E, IH. reflexivity.
Qed.

(** C7: in [STATUS_SENDING_REPLY], a write that brings the bytes written to
    [buffer_size] destroys the client when its shutdown flag is set, and
    otherwise resets it to [STATUS_WAITING_SIZE] and unregisters the
    writable event of its descriptor.  Hence a client that leaves the
    handler alive with the writable event still registered is still in
    [STATUS_SENDING_REPLY] with part of its reply unsent. *)
Theorem write_completion (server : gbServer) (client : gbClient) :
  client_status client = STATUS_SENDING_REPLY ->
  (forall n,
     n <> 0 ->
     client_wrote client + n = client_buffer_size client ->
     let sent := set_wrote_seen (client_wrote client + n)
                   (stats_time (srv_stats server)) client in
     gbWriteReplyHandler (Wrote n) server client
     = (if negb (client_shutdown client =? 0)
        then (gbClientDestroy client server, None)
        else (gbDeleteFileEvent (client_fd client) GB_WRITABLE server,
              Some (gbClientReset sent))) /\
     client_status (gbClientReset sent) = STATUS_WAITING_SIZE /\
     registered (client_fd client) GB_WRITABLE
       (gbDeleteFileEvent (client_fd client) GB_WRITABLE server) = false) /\
  (forall w server' client',
     client_wrote client < client_buffer_size client ->
     match w with
     | Wrote n => n <= client_buffer_size client - client_wrote client
     | WriteError _ => True
     end ->
     gbWriteReplyHandler w server client = (server', Some client') ->
     registered (client_fd client) GB_WRITABLE server' = true ->
     client_status client' = STATUS_SENDING_REPLY /\
     client_wrote client' < client_buffer_size client').
Proof.
  intros Hst. split.
  - intros n Hn Hfull sent.
    split; [|split; [reflexivity|apply registered_gbDeleteFileEvent]].
    unfold gbWriteReplyHandler. rewrite Hst.
    destruct (Z.eqb_spec n 0) as [E|_]; [contradiction|].
    cbn [client_wrote client_buffer_size set_wrote_seen client_shutdown client_fd].
    rewrite Hfull, Z.eqb_refl. reflexivity.
  - intros w server' client' Hpend Hw Hrun Hreg.
    unfold gbWriteReplyHandler in Hrun. rewrite Hst in Hrun.
    destruct w as [errno|n].
    + destruct (errno =? EAGAIN); [|discriminate Hrun].
      injection Hrun as <- <-. split; [exact Hst|exact Hpend].
    + destruct (Z.eqb_spec n 0) as [E|Hn]; [discriminate Hrun|].
      cbn [client_wrote client_buffer_size set_wrote_seen client_shutdown client_fd]
        in Hrun.
      destruct (Z.eqb_spec (client_wrote client + n) (client_buffer_size client))
        as [Hfull|Hpart].
      * destruct (negb (client_shutdown client =? 0)); [discriminate Hrun|].
        injection Hrun as <- <-.
        rewrite registered_gbDeleteFileEvent in Hreg. discriminate Hreg.
      * injection Hrun as <- <-. cbn. split; [exact Hst|lia].
Qed.

Lemma write_completion_witness :
  client_status (replying_client 0) = STATUS_SENDING_REPLY /\
  gbWriteReplyHandler (Wrote 4) replying_server (replying_client 0)
  = (gbDeleteFileEvent 7 GB_WRITABLE replying_server,
     Some (gbClientReset (set_wrote_seen 6 50 (replying_client 0)))) /\
  gbWriteReplyHandler (Wrote 4) replying_server (replying_client 1)
  = (gbClientDestroy (replying_client 1) replying_server, None).
Proof.
  split; [reflexivity|]. split.
  - destruct (write_completion replying_server (replying_client 0) eq_refl)
      as [H _].
    destruct (H 4) as [E _]; [discriminate|reflexivity|]. exact E.
  - destruct (write_completion replying_server (replying_client 1) eq_refl)
      as [H _].
    destruct (H 4) as [E _]; [discriminate|reflexivity|]. exact E.
Defined.

(** ** C9: the cached clock *)

Lemma CRON_EVERY_steady ms s block s' :
  (forall x, steady x (block x)) ->
  CRON_EVERY ms s block = Running s' -> steady s s'.
Proof.
  intros Hb. unfold CRON_EVERY.
  destruct (ms <=? srv_cronperiod s).
  - intros H. injection H as <-. apply Hb.
  - destruct (_ || _); [discriminate|].
    destruct (_ =? 0); intros H; injection H as <-; [apply Hb|apply steady_refl].
Qed.

Lemma gbServerCronHandler_time now server after delay :
  gbServerCronHandler now server = Running (after, delay) ->
  stats_time (srv_stats after) = now.
Proof.
  unfold gbServerCronHandler. fold (tick now server).
  destruct (negb (srv_shutdown (tick now server) =? 0)); [discriminate|].
  destruct (CRON_EVERY 15000 (tick now server) cron_ttl_block) as [s1| |] eqn:E1;
    cbn [bind]; try discriminate.
  destruct (CRON_EVERY 5000 s1 cron_memory_block) as [s2| |] eqn:E2;
    cbn [bind]; try discriminate.
  destruct (CRON_EVERY 15000 s2 cron_stats_block) as [s3| |] eqn:E3;
    cbn [bind]; try discriminate.
  intros H. injection H as <- _.
  apply CRON_EVERY_steady in E1; [|intros x; apply cron_ttl_block_spec].
  apply CRON_EVERY_steady in E2; [|apply cron_memory_block_steady].
  apply CRON_EVERY_steady in E3; [|apply cron_stats_block_steady].
  destruct E1 as (_ & T1 & _), E2 as (_ & T2 & _), E3 as (_ & T3 & _).
  cbn [srv_stats set_stats stats_time set_crondone].
  rewrite T3, T2, T1. reflexivity.
Qed.



Lemma read_size_block_server server client l s' c' l' :
  read_size_block server client l = (s', Some (c', l')) -> s' = server.
Proof.
  unfold read_size_block.
  destruct (client_status client);
    try (intros H; injection H as <- _ _; reflexivity).
  destruct (0 <? _); [intros H; injection H as <- _ _; reflexivity|].
  destruct (_ || _); [discriminate|].
  intros H; injection H as <- _ _; reflexivity.
Qed.

Lemma read_io_block_server r server client l s' c' l' :
  read_io_block r server client l = (s', Some (c', l')) -> s' = server.
Proof.
  unfold read_io_block.
  destruct (client_status client);
    try (destruct r as [errno|bytes];
         [destruct (errno =? EAGAIN); [|discriminate]
         |destruct (_ =? 0); [discriminate|]]);
    intros H; injection H as <- _ _; reflexivity.
Qed.

(** The read handler stamps the client with the cached time before the
    query, if any, is processed. *)
Lemma gbReadQueryHandler_seen
    (gbProcessQuery : gbServer -> gbClient -> Z * gbServer * gbClient)
    r nread0 server client server' client' :
  gbReadQueryHandler gbProcessQuery r nread0 server client = (server', Some client') ->
  (server' = server /\ client_seen client' = stats_time (srv_stats server)) \/
  (exists stamped,
      client_seen stamped = stats_time (srv_stats server) /\
      gbProcessQuery server stamped = (GB_OK, server', client')).
Proof.
  unfold gbReadQueryHandler.
  destruct (read_size_block server client (mkLocals PNull nread0 0))
    as [s1 [[c1 l1]|]] eqn:E1; [|discriminate].
  apply read_size_block_server in E1. subst s1.
  unfold read_continue.
  destruct (read_buffer_block c1 l1) as [c2 l2].
  destruct (read_io_block r server c2 l2) as [s3 [[c3 l3]|]] eqn:E3; [|discriminate].
  apply read_io_block_server in E3. subst s3.
  unfold read_process_block.
  set (stamped := read_account_block server c3 l3).
  assert (Hseen : client_seen stamped = stats_time (srv_stats server)) by reflexivity.
  destruct (client_status stamped);
    try (intros H; injection H as <- <-; left; split; [reflexivity|exact Hseen]).
  destruct (client_read stamped =? client_buffer_size stamped);
    [|intros H; injection H as <- <-; left; split; [reflexivity|exact Hseen]].
  destruct (gbProcessQuery server
              (set_read_status (client_read stamped) STATUS_SENDING_REPLY stamped))
    as [[rc s4] c4] eqn:EQ.
  destruct (Z.eqb_spec rc GB_OK) as [Hrc|Hrc]; cbn [negb]; [|discriminate].
  intros H; injection H as <- <-. right.
  exists (set_read_status (client_read stamped) STATUS_SENDING_REPLY stamped).
  split; [exact Hseen|]. rewrite EQ, Hrc. reflexivity.
Qed.

(** * Further properties of the handlers *)

(** ** The size prefix, read in one piece *)

Lemma testbit_small a n j :
  0 <= a < 2 ^ n -> 0 <= n <= j -> Z.testbit a j = false.
Proof.
  intros Ha Hj. destruct (Z.eq_dec a 0) as [->|Hnz]; [apply Z.bits_0|].
  apply Z.bits_above_log2; [lia|].
  assert (Z.log2 a < n) by (apply Z.log2_lt_pow2; lia). lia.
Qed.

Lemma testbit_255 j : 0 <= j -> Z.testbit 255 j = (j <? 8).
Proof.
  intros Hj. change 255 with (Z.ones 8).
  destruct (Z.ltb_spec j 8).
  - apply Z.ones_spec_low. lia.
  - apply Z.ones_spec_high. lia.
Qed.

Lemma set_byte_testbit k b v i :
  0 <= k -> 0 <= b < 256 -> 0 <= i ->
  Z.testbit (set_byte k b v) i
  = if (8 * k <=? i) && (i <? 8 * k + 8) then Z.testbit b (i - 8 * k)
    else Z.testbit v i.
Proof.
  intros Hk Hb Hi. unfold set_byte.
  rewrite Z.lor_spec, Z.ldiff_spec.
  destruct (Z.leb_spec (8 * k) i) as [Hlo|Hlo]; cbn [andb].
  - rewrite !Z.shiftl_spec by lia. rewrite testbit_255 by lia.
    destruct (Z.ltb_spec i (8 * k + 8)) as [Hhi|Hhi].
    + replace (i - 8 * k <? 8) with true by (symmetry; apply Z.ltb_lt; lia).
      cbn. rewrite andb_false_r. reflexivity.
    + replace (i - 8 * k <? 8) with false by (symmetry; apply Z.ltb_ge; lia).
      rewrite (testbit_small b 8 (i - 8 * k)) by (change (2 ^ 8) with 256; lia).
      cbn. rewrite andb_true_r, orb_false_r. reflexivity.
  - rewrite !Z.shiftl_spec_low by lia.
    cbn. rewrite andb_true_r, orb_false_r. reflexivity.
Qed.

(** Writing the four bytes of [n] over any 32-bit value leaves [n]. *)
Lemma set_bytes_le_bytes n v :
  0 <= n < 2 ^ 32 -> 0 <= v < 2 ^ 32 ->
  set_byte 3 (Z.land (Z.shiftr n 24) 255)
    (set_byte 2 (Z.land (Z.shiftr n 16) 255)
       (set_byte 1 (Z.land (Z.shiftr n 8) 255)
          (set_byte 0 (Z.land n 255) v))) = n.
Proof.
  intros Hn Hv.
  assert (Hbyte : forall x, 0 <= x -> 0 <= Z.land x 255 < 256).
  { intros x Hx. change 255 with (Z.ones 8). rewrite Z.land_ones by lia.
    change (2 ^ 8) with 256. apply Z.mod_pos_bound. lia. }
  assert (Hsh : forall m, 0 <= Z.shiftr n m) by (intros m; apply Z.shiftr_nonneg; lia).
  apply Z.bits_inj'. intros i Hi.
  rewrite !set_byte_testbit by (try lia; auto; apply Hbyte; lia).
  change (8 * 3) with 24. change (8 * 2) with 16. change (8 * 1) with 8.
  change (8 * 0) with 0.
  assert (Hbit : forall m, 0 <= m -> m <= i -> i < m + 8 ->
            Z.testbit (Z.land (Z.shiftr n m) 255) (i - m) = Z.testbit n i).
  { intros m Hm H1 H2. rewrite Z.land_spec, Z.shiftr_spec by lia.
    rewrite testbit_255 by lia.
    replace (i - m <? 8) with true by (symmetry; apply Z.ltb_lt; lia).
    rewrite andb_true_r. f_equal. lia. }
  assert (Hbit0 : i < 8 -> Z.testbit (Z.land n 255) (i - 0) = Z.testbit n i).
  { intros H. rewrite Z.sub_0_r, Z.land_spec, testbit_255 by lia.
    replace (i <? 8) with true by (symmetry; apply Z.ltb_lt; lia).
    apply andb_true_r. }
  destruct (Z.leb_spec 24 i), (Z.ltb_spec i (24 + 8)); cbn [andb];
    try (exfalso; lia); try (apply (Hbit 24); lia);
    (destruct (Z.leb_spec 16 i), (Z.ltb_spec i (16 + 8)); cbn [andb];
     try (exfalso; lia); try (apply (Hbit 16); lia));
    (destruct (Z.leb_spec 8 i), (Z.ltb_spec i (8 + 8)); cbn [andb];
     try (exfalso; lia); try (apply (Hbit 8); lia));
    (destruct (Z.leb_spec 0 i), (Z.ltb_spec i (0 + 8)); cbn [andb];
     try (exfalso; lia); try (apply Hbit0; lia)).
  rewrite (testbit_small v 32 i), (testbit_small n 32 i) by lia. reflexivity.
Qed.

Lemma le_bytes_le_value b0 b1 b2 b3 :
  0 <= b0 < 256 -> 0 <= b1 < 256 -> 0 <= b2 < 256 -> 0 <= b3 < 256 ->
  le_bytes (le_value [b0; b1; b2; b3]) = [b0; b1; b2; b3]
  /\ 0 <= le_value [b0; b1; b2; b3] < 2 ^ 32.
Proof.
  intros H0 H1 H2 H3. unfold le_bytes, le_value. cbn [fold_right].
  change 255 with (Z.ones 8). rewrite !Z.land_ones by lia.
  rewrite !Z.shiftr_div_pow2 by lia.
  change (2 ^ 8) with 256. change (2 ^ 16) with 65536.
  change (2 ^ 24) with 16777216. change (2 ^ 32) with 4294967296.
  split; [|lia].
  repeat f_equal; Z.div_mod_to_equations; lia.
Qed.

(** ** The read handler, step by step *)

Lemma store_size_fields bytes :
  forall off c,
    client_fd (store_size off bytes c) = client_fd c /\
    client_buffer (store_size off bytes c) = client_buffer c /\
    client_read (store_size off bytes c) = client_read c /\
    client_wrote (store_size off bytes c) = client_wrote c /\
    client_seen (store_size off bytes c) = client_seen c /\
    client_status (store_size off bytes c) = client_status c /\
    client_shutdown (store_size off bytes c) = client_shutdown c.
Proof.
  induction bytes as [|b rest IH]; intros off c; [repeat split|].
  cbn [store_size].
  destruct ((0 <=? off) && (off <? sizeof_int));
    match goal with |- context [store_size _ rest ?c'] => destruct (IH (off + 1) c')
      as (E1 & E2 & E3 & E4 & E5 & E6 & E7) end;
    rewrite E1, E2, E3, E4, E5, E6, E7; repeat split.
Qed.

(** One call on a client that waits for more of its size prefix. *)
Lemma read_prefix_step
    (gbProcessQuery : gbServer -> gbClient -> Z * gbServer * gbClient)
    r nread0 server client :
  client_status client = STATUS_WAITING_SIZE ->
  client_read client < sizeof_int ->
  gbReadQueryHandler gbProcessQuery r nread0 server client =
  match r with
  | ReadError errno =>
      if errno =? EAGAIN
      then (server, Some (set_read_seen (client_read client + 0)
                            (stats_time (srv_stats server)) client))
      else (gbClientDestroy client (gbLog WARNING MsgReadError server), None)
  | ReadAvailable bytes =>
      let got := firstn (Z.to_nat (sizeof_int - client_read client)) bytes in
      if Z.of_nat (length got) =? 0
      then (gbClientDestroy client (gbLog DEBUG MsgClientClosed server), None)
      else (server,
            Some (set_read_seen (client_read client + Z.of_nat (length got))
                    (stats_time (srv_stats server))
                    (store_size (sizeof_int * client_read client) got client)))
  end.
Proof.
  intros Hst Hrd. unfold gbReadQueryHandler.
  rewrite (size_prefix_pointer server client (mkLocals PNull nread0 0) Hst Hrd).
  unfold read_continue, read_buffer_block. rewrite Hst.
  unfold read_io_block. rewrite Hst. cbn [l_p l_nread l_toread].
  destruct r as [errno|bytes].
  - destruct (errno =? EAGAIN); [|reflexivity].
    unfold read_process_block, read_account_block. cbn. rewrite Hst. reflexivity.
  - cbv zeta. destruct (_ =? 0); [reflexivity|].
    unfold read_process_block, read_account_block, store. cbn [l_nread].
    match goal with
    | |- context [store_size ?o ?b client] =>
        destruct (store_size_fields b o client) as (_ & _ & Er & _ & _ & E & _)
    end.
    cbn [client_status set_read_seen]. rewrite E, Er, Hst. reflexivity.
Qed.

(** One call on a client that waits for more of its request. *)
Lemma read_payload_step
    (gbProcessQuery : gbServer -> gbClient -> Z * gbServer * gbClient)
    r nread0 server client :
  client_status client = STATUS_WAITING_BUFFER ->
  client_read client < client_buffer_size client ->
  gbReadQueryHandler gbProcessQuery r nread0 server client =
  match r with
  | ReadError errno =>
      if errno =? EAGAIN
      then read_process_block gbProcessQuery server
             (set_read_seen (client_read client + 0)
                (stats_time (srv_stats server)) client)
      else (gbClientDestroy client (gbLog WARNING MsgReadError server), None)
  | ReadAvailable bytes =>
      let got :=
        firstn (Z.to_nat (client_buffer_size client - client_read client)) bytes in
      if Z.of_nat (length got) =? 0
      then (gbClientDestroy client (gbLog DEBUG MsgClientClosed server), None)
      else read_process_block gbProcessQuery server
             (set_read_seen (client_read client + Z.of_nat (length got))
                (stats_time (srv_stats server))
                (store_buffer (client_read client) got client))
  end.
Proof.
  intros Hst Hrd. unfold gbReadQueryHandler, read_size_block. rewrite Hst.
  unfold read_continue, read_buffer_block. rewrite Hst.
  destruct (Z.ltb_spec 0 (client_buffer_size client - client_read client)); [|lia].
  unfold read_io_block. rewrite Hst. cbn [l_p l_nread l_toread].
  destruct r as [errno|bytes].
  - destruct (errno =? EAGAIN); reflexivity.
  - cbv zeta. destruct (_ =? 0); [reflexivity|].
    unfold read_account_block, store, store_buffer. cbn [l_nread].
    destruct (client_buffer client); reflexivity.
Qed.

(** X1.  A read that finds nothing ready ([EAGAIN]) in the middle of a frame
    is a no-op: the server is untouched and the client only has its
    last-seen time stamped. *)
Theorem read_eagain_is_noop
    (gbProcessQuery : gbServer -> gbClient -> Z * gbServer * gbClient)
    (nread0 : Z) (server : gbServer) (client : gbClient) :
  awaiting_input client ->
  gbReadQueryHandler gbProcessQuery (ReadError EAGAIN) nread0 server client
  = (server,
     Some (set_read_seen (client_read client) (stats_time (srv_stats server)) client)).
Proof.
  intros [[Hst Hrd]|[Hst Hrd]].
  - rewrite read_prefix_step by (auto; lia).
    rewrite Z.eqb_refl, Z.add_0_r. reflexivity.
  - rewrite read_payload_step by (auto; lia).
    rewrite Z.eqb_refl, Z.add_0_r. unfold read_process_block.
    cbn [client_status set_read_seen client_read client_buffer_size]. rewrite Hst.
    destruct (Z.eqb_spec (client_read client) (client_buffer_size client)); [lia|].
    reflexivity.
Qed.

Lemma read_eagain_is_noop_witness :
  awaiting_input loading_client /\
  gbReadQueryHandler no_query (ReadError EAGAIN) 0 busy_server loading_client
  = (busy_server, Some (set_read_seen 2 50 loading_client)).
Proof.
  assert (H : awaiting_input loading_client).
  { right. split; [reflexivity|]. cbn. lia. }
  split; [exact H|].
  exact (read_eagain_is_noop no_query 0 busy_server loading_client H).
Defined.

(** X2.  In the middle of a frame, end of file ([read] returning 0) and any
    error other than [EAGAIN] destroy the client, the first logged at DEBUG
    as a closed connection, the second at WARNING as a read error; nothing
    is stored. *)
Theorem read_close_or_error_destroys
    (gbProcessQuery : gbServer -> gbClient -> Z * gbServer * gbClient)
    (nread0 errno : Z) (server : gbServer) (client : gbClient) :
  awaiting_input client ->
  errno <> EAGAIN ->
  gbReadQueryHandler gbProcessQuery (ReadAvailable []) nread0 server client
  = (gbClientDestroy client (gbLog DEBUG MsgClientClosed server), None) /\
  gbReadQueryHandler gbProcessQuery (ReadError errno) nread0 server client
  = (gbClientDestroy client (gbLog WARNING MsgReadError server), None).
Proof.
  intros Hc He. apply Z.eqb_neq in He.
  destruct Hc as [[Hst Hrd]|[Hst Hrd]].
  - rewrite !read_prefix_step by (auto; lia). rewrite He, firstn_nil. split; reflexivity.
  - rewrite !read_payload_step by (auto; lia). rewrite He, firstn_nil. split; reflexivity.
Qed.

Lemma read_close_or_error_destroys_witness :
  (awaiting_input loading_client /\ 104 <> EAGAIN) /\
  snd (gbReadQueryHandler no_query (ReadAvailable []) 0 busy_server loading_client)
  = None /\
  snd (gbReadQueryHandler no_query (ReadError 104) 0 busy_server loading_client)
  = None.
Proof.
  assert (H : awaiting_input loading_client).
  { right. split; [reflexivity|]. cbn. lia. }
  assert (E : 104 <> EAGAIN) by discriminate.
  split; [split; assumption|].
  destruct (read_close_or_error_destroys no_query 0 104 busy_server loading_client H E)
    as [E1 E2].
  rewrite E1, E2. split; reflexivity.
Defined.

(** ** The size prefix in one read *)

Lemma store_whole_prefix b0 b1 b2 b3 c :
  0 <= b0 < 256 -> 0 <= b1 < 256 -> 0 <= b2 < 256 -> 0 <= b3 < 256 ->
  0 <= client_buffer_size c < 2 ^ 32 ->
  store_size 0 [b0; b1; b2; b3] c
  = set_size_spill (le_value [b0; b1; b2; b3]) (client_spill c) c.
Proof.
  intros H0 H1 H2 H3 Hv.
  destruct (le_bytes_le_value b0 b1 b2 b3 H0 H1 H2 H3) as [Hb Hn].
  remember (le_value [b0; b1; b2; b3]) as N eqn:HN.
  pose proof (set_bytes_le_bytes N (client_buffer_size c) Hn Hv) as Hchain.
  unfold le_bytes in Hb.
  pose proof (f_equal (fun l => nth 0 l 0) Hb) as E0.
  pose proof (f_equal (fun l => nth 1 l 0) Hb) as E1.
  pose proof (f_equal (fun l => nth 2 l 0) Hb) as E2.
  pose proof (f_equal (fun l => nth 3 l 0) Hb) as E3.
  cbn [nth] in E0, E1, E2, E3.
  rewrite E0, E1, E2, E3 in Hchain.
  cbn -[set_byte]. unfold set_size_spill. cbn -[set_byte].
  rewrite Hchain. reflexivity.
Qed.

(** The read that finds the whole prefix waiting. *)
Lemma read_whole_prefix
    (gbProcessQuery : gbServer -> gbClient -> Z * gbServer * gbClient)
    nread0 server client b0 b1 b2 b3 rest :
  client_status client = STATUS_WAITING_SIZE ->
  client_read client = 0 ->
  0 <= client_buffer_size client < 2 ^ 32 ->
  0 <= b0 < 256 -> 0 <= b1 < 256 -> 0 <= b2 < 256 -> 0 <= b3 < 256 ->
  gbReadQueryHandler gbProcessQuery (ReadAvailable (b0 :: b1 :: b2 :: b3 :: rest))
    nread0 server client
  = (server,
     Some (set_read_seen 4 (stats_time (srv_stats server))
             (set_size_spill (le_value [b0; b1; b2; b3])
                (client_spill client) client))).
Proof.
  intros Hst Hrd Hv H0 H1 H2 H3.
  rewrite read_prefix_step by (auto; rewrite Hrd; reflexivity).
  rewrite Hrd. cbv zeta.
  change (sizeof_int - 0) with 4. change (Z.to_nat 4) with 4%nat.
  cbn [firstn length]. change (Z.of_nat 4) with 4.
  change (sizeof_int * 0) with 0. change (4 =? 0) with false.
  change (0 + 4) with 4. cbv iota.
  rewrite store_whole_prefix by assumption. reflexivity.
Qed.

(** X3.  When the four bytes of the size prefix arrive in one read, the
    handler takes exactly those four bytes, whatever else waits on the
    socket, and the size field holds their little-endian value. *)
Theorem whole_size_prefix_is_decoded
    (gbProcessQuery : gbServer -> gbClient -> Z * gbServer * gbClient)
    (nread0 : Z) (server : gbServer) (client : gbClient)
    (b0 b1 b2 b3 : Z) (rest : list Z) :
  client_status client = STATUS_WAITING_SIZE ->
  client_read client = 0 ->
  0 <= client_buffer_size client < 2 ^ 32 ->
  0 <= b0 < 256 -> 0 <= b1 < 256 -> 0 <= b2 < 256 -> 0 <= b3 < 256 ->
  gbReadQueryHandler gbProcessQuery (ReadAvailable (b0 :: b1 :: b2 :: b3 :: rest))
    nread0 server client
  = (server,
     Some (set_read_seen 4 (stats_time (srv_stats server))
             (set_size_spill (b0 + 256 * b1 + 65536 * b2 + 16777216 * b3)
                (client_spill client) client))).
Proof.
  intros Hst Hrd Hv H0 H1 H2 H3.
  rewrite read_whole_prefix by assumption.
  replace (le_value [b0; b1; b2; b3])
    with (b0 + 256 * b1 + 65536 * b2 + 16777216 * b3)
    by (unfold le_value; cbn [fold_right]; lia).
  reflexivity.
Qed.

Lemma whole_size_prefix_is_decoded_witness :
  (client_status fresh_client = STATUS_WAITING_SIZE /\ client_read fresh_client = 0) /\
  gbReadQueryHandler no_query (ReadAvailable [16; 1; 0; 0; 2; 0]) 0 busy_server
    fresh_client
  = (busy_server, Some (mkClient 7 None 272 4 0 50 STATUS_WAITING_SIZE 0 [])).
Proof.
  split; [split; reflexivity|].
  rewrite (whole_size_prefix_is_decoded no_query 0 busy_server fresh_client
             16 1 0 0 [2; 0]); try reflexivity; cbn; lia.
Defined.

(** ** From the frame to the query processor *)

Lemma le_value_le_bytes n : 0 <= n < 2 ^ 32 -> le_value (le_bytes n) = n.
Proof.
  intros Hn. unfold le_bytes, le_value. cbn [fold_right].
  change 255 with (Z.ones 8). rewrite !Z.land_ones by lia.
  rewrite !Z.shiftr_div_pow2 by lia.
  change (2 ^ 8) with 256. change (2 ^ 16) with 65536.
  change (2 ^ 24) with 16777216. change (2 ^ 32) with 4294967296 in Hn.
  Z.div_mod_to_equations. lia.
Qed.

Lemma le_bytes_range n :
  0 <= n ->
  0 <= Z.land n 255 < 256 /\
  0 <= Z.land (Z.shiftr n 8) 255 < 256 /\
  0 <= Z.land (Z.shiftr n 16) 255 < 256 /\
  0 <= Z.land (Z.shiftr n 24) 255 < 256.
Proof.
  intros Hn.
  assert (Hb : forall x, 0 <= x -> 0 <= Z.land x 255 < 256).
  { intros x Hx. change 255 with (Z.ones 8). rewrite Z.land_ones by lia.
    change (2 ^ 8) with 256. apply Z.mod_pos_bound. lia. }
  repeat split; apply Hb; try apply Z.shiftr_nonneg; lia.
Qed.

Lemma skipn_zmalloc (l : list Z) :
  skipn (length l) (zmalloc (Z.of_nat (length l))) = [].
Proof.
  apply skipn_all2. unfold zmalloc. rewrite repeat_length, Nat2Z.id. apply le_n.
Qed.

(** The call that finds a whole request of [length payload] bytes waiting
    for a client whose prefix announced that size. *)
Lemma read_whole_request
    (gbProcessQuery : gbServer -> gbClient -> Z * gbServer * gbClient)
    nread server c payload rest :
  client_status c = STATUS_WAITING_SIZE ->
  client_read c = sizeof_int ->
  client_buffer_size c = Z.of_nat (length payload) ->
  sizeof_short <= client_buffer_size c <= limits_maxrequestsize (srv_limits server) ->
  gbReadQueryHandler gbProcessQuery (ReadAvailable (payload ++ rest)) nread server c
  = after_query
      (gbProcessQuery server
         (complete_request c payload (stats_time (srv_stats server)))).
Proof.
  intros Hst Hrd Hsz Hval.
  unfold gbReadQueryHandler, read_size_block. rewrite Hst, Hrd.
  change (0 <? sizeof_int - sizeof_int) with false. cbv iota.
  cbn [client_buffer_size set_read_status].
  replace ((limits_maxrequestsize (srv_limits server) <? client_buffer_size c)
           || (client_buffer_size c <? sizeof_short)) with false
    by (symmetry; apply orb_false_iff; split; [apply Z.ltb_ge|apply Z.ltb_ge]; lia).
  unfold read_continue, read_buffer_block.
  cbn [client_status set_buffer set_read_status client_buffer_size client_read].
  rewrite Z.sub_0_r.
  replace (0 <? client_buffer_size c) with true
    by (symmetry; apply Z.ltb_lt; unfold sizeof_short in Hval; lia).
  unfold read_io_block.
  cbn [client_status set_buffer set_read_status l_toread l_p l_nread].
  rewrite Hsz, Nat2Z.id, firstn_app, firstn_all, Nat.sub_diag, firstn_O, app_nil_r.
  replace (Z.of_nat (length payload) =? 0) with false
    by (symmetry; apply Z.eqb_neq; unfold sizeof_short in Hval; lia).
  unfold store, store_buffer. cbn [client_buffer set_buffer].
  change (Z.to_nat 0) with 0%nat. cbn [firstn Init.Nat.add app].
  rewrite skipn_zmalloc, app_nil_r.
  unfold read_account_block, read_process_block.
  cbn [client_status set_read_seen set_buffer set_read_status client_read
       client_buffer_size l_nread].
  rewrite Hsz, Z.add_0_l, Z.eqb_refl.
  unfold complete_request, after_query, set_read_status, set_read_seen, set_buffer.
  cbn. rewrite Hsz. reflexivity.
Qed.

(** X4.  A request frame is delivered to the query processor as sent: for a
    client waiting for a prefix, the read that finds the prefix of [n]
    (little-endian, in one piece) followed by the [n] bytes of the request
    takes the prefix only; the next read validates the size, allocates the
    buffer, takes exactly the [n] bytes and calls [gbProcessQuery] on the
    client holding them, in [STATUS_SENDING_REPLY].  The client is kept if
    the call returns [GB_OK] and destroyed as malformed otherwise. *)
Theorem request_frame_reaches_query
    (gbProcessQuery : gbServer -> gbClient -> Z * gbServer * gbClient)
    (server : gbServer) (client : gbClient) (payload rest : list Z)
    (nread0 nread1 : Z) :
  client_status client = STATUS_WAITING_SIZE ->
  client_read client = 0 ->
  0 <= client_buffer_size client < 2 ^ 32 ->
  sizeof_short <= Z.of_nat (length payload)
               <= limits_maxrequestsize (srv_limits server) ->
  Z.of_nat (length payload) < 2 ^ 32 ->
  let n := Z.of_nat (length payload) in
  let now := stats_time (srv_stats server) in
  let sized := set_read_seen 4 now (set_size_spill n (client_spill client) client) in
  gbReadQueryHandler gbProcessQuery (ReadAvailable (le_bytes n ++ payload ++ rest))
    nread0 server client = (server, Some sized) /\
  gbReadQueryHandler gbProcessQuery (ReadAvailable (payload ++ rest)) nread1 server sized
  = after_query (gbProcessQuery server (complete_request client payload now)).
Proof.
  intros Hst Hrd Hv Hval Hn n now sized.
  split.
  - assert (Hn0 : 0 <= n) by (unfold n; lia).
    destruct (le_bytes_range n Hn0) as (H0 & H1 & H2 & H3).
    unfold le_bytes. cbn [app].
    rewrite read_whole_prefix by assumption.
    fold (le_bytes n). rewrite le_value_le_bytes by (split; [exact Hn0|exact Hn]).
    reflexivity.
  - exact (read_whole_request gbProcessQuery nread1 server sized payload rest
             Hst eq_refl eq_refl Hval).
Qed.

Lemma request_frame_reaches_query_witness :
  (client_status fresh_client = STATUS_WAITING_SIZE /\ client_read fresh_client = 0) /\
  gbReadQueryHandler no_query (ReadAvailable [3; 0; 0; 0; 1; 0; 65; 9]) 0 busy_server
    fresh_client
  = (busy_server, Some (mkClient 7 None 3 4 0 50 STATUS_WAITING_SIZE 0 [])) /\
  gbReadQueryHandler no_query (ReadAvailable [1; 0; 65; 9]) 0 busy_server
    (mkClient 7 None 3 4 0 50 STATUS_WAITING_SIZE 0 [])
  = (busy_server, Some (mkClient 7 (Some [1; 0; 65]) 3 3 0 50 STATUS_SENDING_REPLY 0 [])).
Proof.
  split; [split; reflexivity|].
  refine (request_frame_reaches_query no_query busy_server fresh_client
            [1; 0; 65] [9] 0 0 eq_refl eq_refl _ _ _).
  - split; [discriminate|reflexivity].
  - split; discriminate.
  - reflexivity.
Defined.

(** X5.  A request that arrives in two pieces is reassembled in order: the
    first read stores its piece at the start of the buffer and keeps the
    client in [STATUS_WAITING_BUFFER] without calling the query processor;
    the second read takes exactly the missing bytes, and [gbProcessQuery]
    then receives the two pieces concatenated. *)
Theorem chunked_request_is_reassembled
    (gbProcessQuery : gbServer -> gbClient -> Z * gbServer * gbClient)
    (server : gbServer) (client : gbClient) (buf chunk1 chunk2 rest : list Z)
    (nread0 nread1 : Z) :
  client_status client = STATUS_WAITING_BUFFER ->
  client_read client = 0 ->
  client_buffer client = Some buf ->
  client_buffer_size client = Z.of_nat (length buf) ->
  length buf = (length chunk1 + length chunk2)%nat ->
  chunk1 <> [] -> chunk2 <> [] ->
  let now := stats_time (srv_stats server) in
  let partial :=
    set_read_seen (Z.of_nat (length chunk1)) now
      (set_buffer (Some (chunk1 ++ skipn (length chunk1) buf)) client) in
  gbReadQueryHandler gbProcessQuery (ReadAvailable chunk1) nread0 server client
  = (server, Some partial) /\
  gbReadQueryHandler gbProcessQuery (ReadAvailable (chunk2 ++ rest)) nread1 server partial
  = after_query (gbProcessQuery server (complete_request client (chunk1 ++ chunk2) now)).
Proof.
  intros Hst Hrd Hbuf Hsz Hlen Hc1 Hc2 now partial.
  assert (L1 : (0 < length chunk1)%nat) by (destruct chunk1; [contradiction|cbn; lia]).
  assert (L2 : (0 < length chunk2)%nat) by (destruct chunk2; [contradiction|cbn; lia]).
  split.
  - rewrite read_payload_step by (auto; lia). cbv zeta.
    rewrite Hrd, Hsz, Z.sub_0_r, Nat2Z.id, firstn_all2 by lia.
    replace (Z.of_nat (length chunk1) =? 0) with false
      by (symmetry; apply Z.eqb_neq; lia).
    unfold store_buffer. rewrite Hbuf.
    change (Z.to_nat 0) with 0%nat. cbn [firstn Init.Nat.add app].
    unfold read_process_block.
    cbn [client_status set_read_seen set_buffer client_read client_buffer_size].
    rewrite Hst, Hsz.
    replace (0 + Z.of_nat (length chunk1) =? Z.of_nat (length buf)) with false
      by (symmetry; apply Z.eqb_neq; lia).
    reflexivity.
  - assert (Hst' : client_status partial = STATUS_WAITING_BUFFER) by exact Hst.
    assert (Hrd' : client_read partial < client_buffer_size partial).
    { cbn. rewrite Hsz. lia. }
    rewrite read_payload_step by assumption. cbv zeta.
    unfold partial.
    cbn [client_read client_buffer_size set_read_seen set_buffer].
    rewrite Hsz.
    replace (Z.to_nat (Z.of_nat (length buf) - Z.of_nat (length chunk1)))
      with (length chunk2) by lia.
    rewrite firstn_app, firstn_all, Nat.sub_diag, firstn_O, app_nil_r.
    replace (Z.of_nat (length chunk2) =? 0) with false
      by (symmetry; apply Z.eqb_neq; lia).
    unfold store_buffer. cbn [client_buffer set_read_seen set_buffer].
    rewrite Nat2Z.id, firstn_app, firstn_all, Nat.sub_diag, firstn_O, app_nil_r.
    rewrite (skipn_all2 (chunk1 ++ skipn (length chunk1) buf))
      by (rewrite length_app, length_skipn; lia).
    rewrite app_nil_r.
    unfold read_process_block.
    cbn [client_status set_read_seen set_buffer client_read client_buffer_size].
    rewrite Hst, Hsz.
    replace (Z.of_nat (length chunk1) + Z.of_nat (length chunk2)
             =? Z.of_nat (length buf)) with true
      by (symmetry; apply Z.eqb_eq; lia).
    unfold complete_request, after_query, set_read_status, set_read_seen, set_buffer.
    cbn. rewrite length_app, Hsz.
    replace (Z.of_nat (length chunk1) + Z.of_nat (length chunk2))
      with (Z.of_nat (length buf)) by lia.
    replace (Z.of_nat (length chunk1 + length chunk2))
      with (Z.of_nat (length buf)) by lia.
    reflexivity.
Qed.

Lemma chunked_request_is_reassembled_witness :
  (client_status ready_client = STATUS_WAITING_BUFFER /\
   client_read ready_client = 0 /\ [1; 0] <> @nil Z /\ [65; 66; 67] <> @nil Z) /\
  gbReadQueryHandler no_query (ReadAvailable [1; 0]) 0 busy_server ready_client
  = (busy_server,
     Some (mkClient 7 (Some [1; 0; 0; 0; 0]) 5 2 0 50 STATUS_WAITING_BUFFER 0 [])) /\
  gbReadQueryHandler no_query (ReadAvailable [65; 66; 67; 4; 0; 0; 0]) 0 busy_server
    (mkClient 7 (Some [1; 0; 0; 0; 0]) 5 2 0 50 STATUS_WAITING_BUFFER 0 [])
  = (busy_server,
     Some (mkClient 7 (Some [1; 0; 65; 66; 67]) 5 5 0 50 STATUS_SENDING_REPLY 0 [])).
Proof.
  split; [repeat split; discriminate|].
  refine (chunked_request_is_reassembled no_query busy_server ready_client
            [0; 0; 0; 0; 0] [1; 0] [65; 66; 67] [4; 0; 0; 0] 0 0
            eq_refl eq_refl eq_refl eq_refl eq_refl _ _); discriminate.
Defined.

(** X6.  While a reply is pending the read handler takes nothing from the
    socket: whatever waits there, the server is untouched and the client
    keeps its descriptor, buffer, size, write cursor, status and shutdown
    flag, so the next request is not read before the reply is flushed.
    (Its read count alone is not kept: the handler adds the local [nread],
    which it has not set on this path.) *)
Theorem read_ignores_socket_while_replying
    (gbProcessQuery : gbServer -> gbClient -> Z * gbServer * gbClient)
    (r : read_result) (nread0 : Z) (server : gbServer) (client : gbClient) :
  client_status client = STATUS_SENDING_REPLY ->
  exists client',
    gbReadQueryHandler gbProcessQuery r nread0 server client = (server, Some client') /\
    client_fd client' = client_fd client /\
    client_buffer client' = client_buffer client /\
    client_buffer_size client' = client_buffer_size client /\
    client_wrote client' = client_wrote client /\
    client_status client' = STATUS_SENDING_REPLY /\
    client_shutdown client' = client_shutdown client /\
    client_seen client' = stats_time (srv_stats server).
Proof.
  intros Hst.
  exists (set_read_seen (client_read client + nread0) (stats_time (srv_stats server))
            client).
  split; [|repeat split; exact Hst].
  unfold gbReadQueryHandler, read_size_block. rewrite Hst.
  unfold read_continue, read_buffer_block. rewrite Hst.
  unfold read_io_block. rewrite Hst.
  unfold read_process_block, read_account_block.
  cbn [client_status set_read_seen l_nread]. rewrite Hst. reflexivity.
Qed.

Lemma read_ignores_socket_while_replying_witness :
  client_status (replying_client 0) = STATUS_SENDING_REPLY /\
  fst (gbReadQueryHandler no_query (ReadAvailable [9; 9]) 0 replying_server
         (replying_client 0)) = replying_server.
Proof.
  split; [reflexivity|].
  destruct (read_ignores_socket_while_replying no_query (ReadAvailable [9; 9]) 0
              replying_server (replying_client 0) eq_refl) as (c & E & _).
  rewrite E. reflexivity.
Defined.

(** ** Flushing a reply *)

Lemma written_nonneg ws : Forall write_progress ws -> 0 <= written ws.
Proof.
  induction 1 as [|w rest Hw _ IH]; cbn [written]; [lia|].
  destruct w as [e|n]; cbn in Hw; lia.
Qed.

(** X8.  A reply is flushed the same way however the socket takes it: over
    any sequence of writable events that each return [EAGAIN] or take some
    bytes, ending with the write that takes the last byte, the client stays
    in place until that last write, and is then reset with the writable
    event unregistered, or destroyed when its shutdown flag is set. *)
Theorem reply_flush_any_chunking
    (ws : list write_result) (last : Z) (server : gbServer) (client : gbClient) :
  client_status client = STATUS_SENDING_REPLY ->
  Forall write_progress ws ->
  0 < last ->
  client_wrote client + written ws + last = client_buffer_size client ->
  write_run (ws ++ [Wrote last]) server client
  = if negb (client_shutdown client =? 0)
    then (gbClientDestroy client server, None)
    else (gbDeleteFileEvent (client_fd client) GB_WRITABLE server,
          Some (gbClientReset
                  (set_wrote_seen (client_buffer_size client)
                     (stats_time (srv_stats server)) client))).
Proof.
  intros Hst Hws Hlast. revert client Hst.
  induction Hws as [|w rest Hw Hrest IH]; intros client Hst Hsum.
  - cbn [app write_run written] in *. unfold gbWriteReplyHandler. rewrite Hst.
    destruct (Z.eqb_spec last 0) as [E|_]; [lia|].
    cbn [client_wrote client_buffer_size set_wrote_seen client_shutdown client_fd].
    replace (client_wrote client + last) with (client_buffer_size client) by lia.
    rewrite Z.eqb_refl.
    destruct (negb (client_shutdown client =? 0)); reflexivity.
  - pose proof (written_nonneg rest Hrest) as Hnn.
    cbn [app write_run]. unfold gbWriteReplyHandler at 1. rewrite Hst.
    destruct w as [errno|n]; cbn [write_progress written] in Hw, Hsum.
    + subst errno. rewrite Z.eqb_refl. apply IH; assumption.
    + destruct (Z.eqb_spec n 0) as [E|_]; [lia|].
      cbn [client_wrote client_buffer_size set_wrote_seen].
      destruct (Z.eqb_spec (client_wrote client + n) (client_buffer_size client));
        [lia|].
      rewrite IH; [reflexivity|exact Hst|cbn; lia].
Qed.

Lemma reply_flush_any_chunking_witness :
  (client_status (replying_client 0) = STATUS_SENDING_REPLY /\ 0 < 1) /\
  write_run [Wrote 2; WriteError EAGAIN; Wrote 1; Wrote 1] replying_server
    (replying_client 0)
  = (gbDeleteFileEvent 7 GB_WRITABLE replying_server,
     Some (mkClient 7 None 0 0 0 50 STATUS_WAITING_SIZE 0 [])).
Proof.
  split; [split; reflexivity|].
  refine (reply_flush_any_chunking [Wrote 2; WriteError EAGAIN; Wrote 1] 1
            replying_server (replying_client 0) eq_refl _ eq_refl eq_refl).
  repeat constructor.
Defined.

(** ** Accepting below the cap *)



(** ** The rhythm of the cron *)

(** X10.  With [0 < cron_period < N], the block under [CRON_EVERY(N)] that
    runs on a tick runs again exactly [N / cron_period] ticks later and on
    no tick in between; the time between two runs, [N / cron_period] periods,
    is at most [N] ms and more than [N - cron_period] ms. *)
Theorem cron_every_spacing (N j : Z) (server : gbServer) :
  0 < srv_cronperiod server < N ->
  cron_due N server = true ->
  let every := Z.quot N (srv_cronperiod server) in
  (0 < j < every -> cron_due N (later j server) = false) /\
  cron_due N (later every server) = true /\
  N - srv_cronperiod server < every * srv_cronperiod server <= N.
Proof.
  intros Hp Hdue every.
  assert (Hq : 0 < every) by (apply Z.quot_str_pos; lia).
  assert (Hnz : every <> 0) by lia.
  assert (Hdiv : (every | stats_crondone (srv_stats server))).
  { unfold cron_due in Hdue. apply orb_true_iff in Hdue.
    destruct Hdue as [H|H]; [apply Z.leb_le in H; lia|].
    apply Z.eqb_eq in H. apply Z.rem_divide; assumption. }
  assert (Hlater : forall k,
            cron_due N (later k server)
            = (Z.rem (stats_crondone (srv_stats server) + k) every =? 0)).
  { intros k. unfold cron_due, later. cbn [srv_cronperiod set_stats srv_stats
                                            stats_crondone set_crondone].
    fold every.
    destruct (Z.leb_spec N (srv_cronperiod server)); [lia|]. reflexivity. }
  split; [|split].
  - intros Hj. rewrite Hlater. apply Z.eqb_neq. intros H.
    apply Z.rem_divide in H; [|exact Hnz].
    apply (Z.divide_add_cancel_r _ _ _ Hdiv) in H.
    apply Z.divide_pos_le in H; lia.
  - rewrite Hlater. apply Z.eqb_eq. apply Z.rem_divide; [exact Hnz|].
    apply Z.divide_add_r; [exact Hdiv|apply Z.divide_refl].
  - unfold every. rewrite Z.quot_div_nonneg by lia.
    pose proof (Z.mul_div_le N (srv_cronperiod server) ltac:(lia)).
    pose proof (Z.mul_succ_div_gt N (srv_cronperiod server) ltac:(lia)).
    lia.
Qed.

Lemma cron_every_spacing_witness :
  (0 < srv_cronperiod calm_server < 15000 /\ cron_due 15000 calm_server = true) /\
  cron_due 15000 (later 149 calm_server) = false /\
  cron_due 15000 (later 150 calm_server) = true.
Proof.
  split; [repeat split|].
  destruct (cron_every_spacing 15000 149 calm_server) as (H1 & H2 & _);
    [split; reflexivity|reflexivity|].
  split; [apply H1; split; reflexivity|exact H2].
Defined.

(** X11.  Ticks are counted and touch no client: over any number of cron
    ticks of a server that is not shutting down, with a positive period,
    the process keeps running, [stats.crondone] grows by one per tick, and
    the limits, the period, the client set and the registered events stay
    as they were (the cron of gibson.c reaps no idle client). *)
Theorem cron_run_counts_ticks (nows : list Z) (server : gbServer) :
  srv_shutdown server = 0 ->
  0 < srv_cronperiod server ->
  exists after,
    cron_run nows server = Running after /\
    stats_crondone (srv_stats after)
    = stats_crondone (srv_stats server) + Z.of_nat (length nows) /\
    srv_limits after = srv_limits server /\
    srv_cronperiod after = srv_cronperiod server /\
    srv_shutdown after = 0 /\
    srv_clients after = srv_clients server /\
    srv_events after = srv_events server /\
    stats_nclients (srv_stats after) = stats_nclients (srv_stats server).
Proof.
  revert server. induction nows as [|now rest IH]; intros server Hs Hp.
  - exists server. cbn [cron_run length Z.of_nat]. rewrite Z.add_0_r.
    repeat split. exact Hs.
  - destruct (gbServerCronHandler_running now server Hs Hp) as [R St].
    cbn [cron_run]. rewrite R. cbn [bind fst].
    match goal with |- context [cron_run rest ?s] => set (next := s) end.
    destruct St as (El & _ & _ & En & Ep & _ & Esh & Ecl & Eev).
    destruct (IH next) as (after & Hrun & Hc & Hl & Hper & Hsh & Hcl & Hev & Hn).
    { unfold next. cbn. rewrite Esh. exact Hs. }
    { unfold next. cbn. rewrite Ep. exact Hp. }
    exists after. split; [exact Hrun|].
    rewrite Hc, Hl, Hper, Hcl, Hev, Hn. unfold next.
    cbn [srv_stats set_stats stats_crondone set_crondone srv_limits srv_cronperiod
         srv_clients srv_events stats_nclients length].
    rewrite El, Ep, Ecl, Eev, En. cbn [tick srv_limits srv_cronperiod srv_clients
      srv_events set_stats srv_stats stats_nclients set_time].
    repeat split; try assumption. lia.
Qed.

Lemma cron_run_counts_ticks_witness :
  (srv_shutdown busy_server = 0 /\ 0 < srv_cronperiod busy_server) /\
  match cron_run [51; 51; 52] busy_server with
  | Running after =>
      stats_crondone (srv_stats after) = 3 /\ srv_clients after = [7; 5]
  | _ => False
  end.
Proof.
  split; [split; reflexivity|].
  destruct (cron_run_counts_ticks [51; 51; 52] busy_server)
    as (after & E & Hc & _ & _ & _ & Hcl & _); [reflexivity|reflexivity|].
  rewrite E. split; [exact Hc|exact Hcl].
Defined.

(** ** What a tick does to the items *)

Lemma CRON_EVERY_cases ms s block s' :
  CRON_EVERY ms s block = Running s' -> s' = block s \/ s' = s.
Proof.
  unfold CRON_EVERY. destruct (ms <=? srv_cronperiod s).
  - intros H. injection H as <-. left. reflexivity.
  - destruct (_ || _); [discriminate|].
    destruct (_ =? 0); intros H; injection H as <-; [left|right]; reflexivity.
Qed.

Lemma cron_ttl_block_items s kv :
  In kv (at_items [] (srv_tree (cron_ttl_block s))) ->
  In kv (at_items [] (srv_tree s)).
Proof.
  destruct (cron_ttl_block_spec s) as [E _]. rewrite E, at_items_swept.
  intros H. apply filter_In in H. apply H.
Qed.

Lemma cron_memory_block_items s kv :
  In kv (at_items [] (srv_tree (cron_memory_block s))) ->
  In kv (at_items [] (srv_tree s)).
Proof.
  destruct (Z_lt_le_dec (limits_maxmem (srv_limits s)) (stats_memused (srv_stats s)))
    as [Hp|Hc].
  - rewrite (cron_memory_block_spec s Hp), at_items_swept.
    intros H. apply filter_In in H. apply H.
  - rewrite (cron_memory_block_idle s Hc). auto.
Qed.

(** X12.  A cron tick only removes items: every key found in the trie after
    a tick was there before it, with the very same item (no item is added,
    moved to another key or modified by the TTL sweep or the eviction). *)
Theorem cron_tick_only_removes_items (now delay : Z) (server after : gbServer)
    (key : list Z) (item : gbItem) :
  gbServerCronHandler now server = Running (after, delay) ->
  In (key, item) (at_items [] (srv_tree after)) ->
  In (key, item) (at_items [] (srv_tree server)).
Proof.
  unfold gbServerCronHandler. fold (tick now server).
  destruct (negb (srv_shutdown (tick now server) =? 0)); [discriminate|].
  destruct (CRON_EVERY 15000 (tick now server) cron_ttl_block) as [s1| |] eqn:E1;
    cbn [bind]; try discriminate.
  destruct (CRON_EVERY 5000 s1 cron_memory_block) as [s2| |] eqn:E2;
    cbn [bind]; try discriminate.
  destruct (CRON_EVERY 15000 s2 cron_stats_block) as [s3| |] eqn:E3;
    cbn [bind]; try discriminate.
  intros H. injection H as <- _. cbn [srv_tree set_stats].
  intros Hin.
  assert (H2 : In (key, item) (at_items [] (srv_tree s2))).
  { apply CRON_EVERY_cases in E3. destruct E3 as [-> | ->]; exact Hin. }
  assert (H1 : In (key, item) (at_items [] (srv_tree s1))).
  { apply CRON_EVERY_cases in E2. destruct E2 as [-> | ->];
      [apply cron_memory_block_items|]; exact H2. }
  apply CRON_EVERY_cases in E1. destruct E1 as [-> | ->];
    [apply cron_ttl_block_items in H1|]; exact H1.
Qed.

Lemma cron_tick_only_removes_items_witness :
  match gbServerCronHandler 100 pressed_server with
  | Running (after, _) =>
      In (key_foo, item_foo) (at_items [] (srv_tree after)) /\
      In (key_foo, item_foo) (at_items [] (srv_tree pressed_server))
  | _ => False
  end.
Proof.
  destruct (gbServerCronHandler 100 pressed_server) as [[after delay]| |] eqn:E;
    try (vm_compute in E; discriminate E).
  assert (Hin : In (key_foo, item_foo) (at_items [] (srv_tree after))).
  { vm_compute in E. injection E as <- _. vm_compute. left. reflexivity. }
  split; [exact Hin|].
  exact (cron_tick_only_removes_items 100 delay pressed_server after key_foo item_foo
           E Hin).
Defined.

(** X13.  [cron_period] is not checked: with a period of 0 the first
    [CRON_EVERY] of a tick divides by zero, unless the tick is the one that
    shuts the server down, which exits before any gate. *)
Theorem cron_zero_period_divides_by_zero (now : Z) (server : gbServer) :
  srv_cronperiod server = 0 ->
  gbServerCronHandler now server
  = if srv_shutdown server =? 0 then Fault
    else Exited 0 (gbServerDestroy (tick now server)).
Proof.
  intros Hp. unfold gbServerCronHandler. fold (tick now server).
  change (srv_shutdown (tick now server)) with (srv_shutdown server).
  destruct (srv_shutdown server =? 0); [|reflexivity].
  cbn [negb]. unfold CRON_EVERY at 1.
  change (srv_cronperiod (tick now server)) with (srv_cronperiod server).
  rewrite Hp. reflexivity.
Qed.

Lemma cron_zero_period_divides_by_zero_witness :
  srv_cronperiod (main (sample_config 800 0) 3 50 1001) = 0 /\
  gbServerCronHandler 51 (main (sample_config 800 0) 3 50 1001) = Fault.
Proof.
  split; [reflexivity|].
  exact (cron_zero_period_divides_by_zero 51 (main (sample_config 800 0) 3 50 1001)
           eq_refl).
Defined.

(** ** The command line *)

(** X14.  The exit status of the option loop is decided by the first option
    that is neither a flag nor [-c]: [-h] exits with 0, anything else with
    1, whatever follows it.  When there is no such option the loop ends
    without exiting, with the file of the last [-c], or the default when
    there is none. *)
Theorem main_options_exit (A : Type) (before after : list (Z * A)) (c : Z)
    (optarg configuration : A) :
  Forall (fun r => fst r = 0 \/ fst r = 99) before ->
  c <> -1 -> c <> 0 -> c <> 99 ->
  main_options (before ++ (c, optarg) :: after) configuration
  = inl (if c =? 104 then 0 else 1) /\
  main_options before configuration = inr (last_config before configuration) /\
  main_options (before ++ (-1, optarg) :: after) configuration
  = inr (last_config before configuration).
Proof.
  intros Hb Hc1 Hc0 Hc99. revert configuration.
  induction Hb as [|[c0 a0] rest H0 _ IH]; intros configuration.
  - cbn [app main_options last_config fold_left].
    destruct (Z.eqb_spec c (-1)); [contradiction|].
    destruct (Z.eqb_spec c 0); [contradiction|].
    destruct (Z.eqb_spec c 99); [contradiction|].
    destruct (c =? 104); repeat split.
  - cbn [fst] in H0. cbn [app main_options]. unfold last_config. cbn [fold_left fst snd].
    destruct H0 as [-> | ->]; cbn [Z.eqb Pos.eqb]; apply IH.
Qed.

Lemma main_options_exit_witness :
  (Forall (fun r : Z * nat => fst r = 0 \/ fst r = 99) [(99, 1%nat); (99, 2%nat)] /\
   104 <> -1 /\ 63 <> -1) /\
  main_options [(99, 1%nat); (99, 2%nat); (104, 0%nat); (63, 0%nat)] 0%nat = inl 0 /\
  main_options [(99, 1%nat); (99, 2%nat); (63, 0%nat); (104, 0%nat)] 0%nat = inl 1 /\
  main_options [(99, 1%nat); (99, 2%nat)] 0%nat = inr 2%nat.
Proof.
  assert (H : Forall (fun r : Z * nat => fst r = 0 \/ fst r = 99)
                [(99, 1%nat); (99, 2%nat)]).
  { repeat constructor; right; reflexivity. }
  split; [split; [exact H|split; discriminate]|].
  split; [|split].
  - exact (proj1 (main_options_exit nat [(99, 1%nat); (99, 2%nat)] [(63, 0%nat)]
                    104 0%nat 0%nat H ltac:(discriminate) ltac:(discriminate)
                    ltac:(discriminate))).
  - exact (proj1 (main_options_exit nat [(99, 1%nat); (99, 2%nat)] [(104, 0%nat)]
                    63 0%nat 0%nat H ltac:(discriminate) ltac:(discriminate)
                    ltac:(discriminate))).
  - exact (proj1 (proj2 (main_options_exit nat [(99, 1%nat); (99, 2%nat)] []
                    63 0%nat 0%nat H ltac:(discriminate) ltac:(discriminate)
                    ltac:(discriminate)))).
Defined.

(** ** The size formatter *)

Lemma Qle_bool_1024 n p : Qle_bool 1024 (n # p) = (1024 * Zpos p <=? n).
Proof. unfold Qle_bool. cbn [Qnum Qden]. rewrite Z.mul_1_r. reflexivity. Qed.

Lemma Qdiv_1024 n p : ((n # p) / 1024)%Q = (n * 1 # p * 1024).
Proof. reflexivity. Qed.

(** X15.  [gbMemFormat] divides by 1024 until the value is below 1024, at
    most five times, and the value it prints is the byte count divided by
    1024 to the power of the suffix index.  Below 1024^5 bytes the index
    stays within the five suffixes and the printed value is below 1024 (and
    at least 1 from 1024 bytes on); from 1024^5 bytes on the index is 5,
    one past the last suffix. *)
Theorem gbMemFormat_suffix (used : Z) :
  0 <= used < 2 ^ 53 ->
  let '(i, d) := gbMemFormat used in
  (d * inject_Z (1024 ^ Z.of_nat i) == inject_Z used)%Q /\
  (used < 1024 ^ 5 ->
   (i < 5)%nat /\ (d < 1024)%Q /\ (used < 1024 -> i = 0%nat) /\
   (1024 <= used -> (1 <= d)%Q)) /\
  (1024 ^ 5 <= used -> i = 5%nat).
Proof.
  intros Hu. unfold gbMemFormat, inject_Z.
  change (1024 ^ 5) with 1125899906842624.
  cbn [gbMemFormat_loop Nat.ltb Nat.leb andb].
  repeat (rewrite ?Qdiv_1024, ?Qle_bool_1024;
          match goal with
          | |- context [?a <=? ?b] => destruct (Z.leb_spec a b)
          end; cbn [gbMemFormat_loop Nat.ltb Nat.leb andb]).
  all: unfold Qeq, Qlt, Qle;
    cbn [Qnum Qden Qmult Z.of_nat Pos.of_succ_nat Pos.succ Z.pow Z.pow_pos
         Pos.iter Z.mul Pos.mul inject_Z].
  all: repeat split; intros; try lia.
Qed.

Lemma gbMemFormat_suffix_witness :
  0 <= 1536 < 2 ^ 53 /\
  fst (gbMemFormat 1536) = 1%nat /\
  (snd (gbMemFormat 1536) * inject_Z 1024 == inject_Z 1536)%Q.
Proof.
  assert (H : 0 <= 1536 < 2 ^ 53) by (split; [discriminate|reflexivity]).
  split; [exact H|]. split; [reflexivity|].
  exact (proj1 (gbMemFormat_suffix 1536 H)).
Defined.

(** ** Filling the request buffer *)

(** X16.  A read that brings part of a request appends it: the bytes land
    right after those already received, which stay as they are, the rest of
    the buffer and its length are unchanged, and the read count advances by
    the number of bytes taken; the server is untouched and no query is
    processed. *)
Theorem read_appends_to_buffer
    (gbProcessQuery : gbServer -> gbClient -> Z * gbServer * gbClient)
    (nread0 : Z) (server : gbServer) (client : gbClient) (buf bytes : list Z) :
  client_status client = STATUS_WAITING_BUFFER ->
  client_buffer client = Some buf ->
  client_buffer_size client = Z.of_nat (length buf) ->
  0 <= client_read client ->
  bytes <> [] ->
  client_read client + Z.of_nat (length bytes) < client_buffer_size client ->
  let k := Z.to_nat (client_read client) in
  exists client' buf',
    gbReadQueryHandler gbProcessQuery (ReadAvailable bytes) nread0 server client
    = (server, Some client') /\
    client_buffer client' = Some buf' /\
    buf' = firstn k buf ++ bytes ++ skipn (k + length bytes) buf /\
    length buf' = length buf /\
    client_read client' = client_read client + Z.of_nat (length bytes) /\
    client_status client' = STATUS_WAITING_BUFFER /\
    client_buffer_size client' = client_buffer_size client.
Proof.
  intros Hst Hbuf Hsz Hrd Hb Hpart k.
  assert (L : (0 < length bytes)%nat) by (destruct bytes; [contradiction|cbn; lia]).
  rewrite read_payload_step by (auto; lia). cbv zeta.
  rewrite firstn_all2 by lia.
  replace (Z.of_nat (length bytes) =? 0) with false by (symmetry; apply Z.eqb_neq; lia).
  unfold store_buffer. rewrite Hbuf. fold k.
  unfold read_process_block.
  cbn [client_status set_read_seen set_buffer client_read client_buffer_size].
  rewrite Hst.
  destruct (Z.eqb_spec (client_read client + Z.of_nat (length bytes))
              (client_buffer_size client)); [lia|].
  eexists. eexists. split; [reflexivity|].
  cbn [client_buffer client_read client_status client_buffer_size set_read_seen
       set_buffer].
  repeat split; try assumption.
  rewrite !length_app, length_firstn, length_skipn. lia.
Qed.

Lemma read_appends_to_buffer_witness :
  (client_status loading_client = STATUS_WAITING_BUFFER /\ [65; 66] <> @nil Z) /\
  gbReadQueryHandler no_query (ReadAvailable [65; 66]) 0 busy_server loading_client
  = (busy_server,
     Some (mkClient 7 (Some [1; 0; 65; 66; 0]) 5 4 0 50 STATUS_WAITING_BUFFER 0 [])).
Proof.
  split; [split; [reflexivity|discriminate]|].
  destruct (read_appends_to_buffer no_query 0 busy_server loading_client
              [1; 0; 0; 0; 0] [65; 66])
    as (c & b & E & _);
    [reflexivity|reflexivity|reflexivity|discriminate|discriminate|reflexivity|].
  reflexivity.
Defined.

(** ** A whole tick *)

Lemma cron_due_steady ms s s' : steady s s' -> cron_due ms s' = cron_due ms s.
Proof.
  intros (_ & _ & Ec & _ & Ep & _). unfold cron_due. rewrite Ec, Ep. reflexivity.
Qed.

Lemma filter_filter {A : Type} (p q : A -> bool) (l : list A) :
  filter q (filter p l) = filter (fun x => p x && q x) l.
Proof.
  induction l as [|x l IH]; [reflexivity|]. cbn [filter].
  destruct (p x); cbn [filter andb]; [destruct (q x)|]; rewrite IH; reflexivity.
Qed.

(** X17.  What a tick leaves in the trie, when both the TTL sweep and the
    pressure check are due: the items that are not expired at the time of
    the tick and, if the memory used after the sweep still exceeds
    [max_memory], that are not idle for a non-zero time of at least
    [gc_ratio]; they keep their keys and their order. *)
Theorem cron_tick_items (now : Z) (server : gbServer) :
  srv_shutdown server = 0 ->
  0 < srv_cronperiod server ->
  cron_due 15000 server = true ->
  cron_due 5000 server = true ->
  let swept := cron_ttl_block (tick now server) in
  let pressure := limits_maxmem (srv_limits swept) <? stats_memused (srv_stats swept) in
  exists after,
    gbServerCronHandler now server = Running (after, srv_cronperiod server) /\
    at_items [] (srv_tree after)
    = filter (fun kv =>
                negb (expired now (snd kv))
                && negb (pressure && idle_out now (srv_gc_ratio server) (snd kv)))
        (at_items [] (srv_tree server)).
Proof.
  intros Hs Hp H15 H5 swept pressure.
  destruct (gbServerCronHandler_running now server Hs Hp) as [R _].
  eexists. split; [exact R|].
  cbn [srv_tree set_stats].
  assert (G1 : gated 15000 cron_ttl_block (tick now server) = swept).
  { unfold gated.
    change (cron_due 15000 (tick now server)) with (cron_due 15000 server).
    rewrite H15. reflexivity. }
  rewrite G1.
  destruct (cron_ttl_block_spec (tick now server)) as [Et St]. fold swept in Et, St.
  assert (G2 : gated 5000 cron_memory_block swept = cron_memory_block swept).
  { unfold gated. rewrite (cron_due_steady 5000 _ _ St).
    change (cron_due 5000 (tick now server)) with (cron_due 5000 server).
    rewrite H5. reflexivity. }
  rewrite G2.
  assert (G3 : srv_tree (gated 15000 cron_stats_block (cron_memory_block swept))
               = srv_tree (cron_memory_block swept)).
  { unfold gated.
    destruct (cron_due 15000 (cron_memory_block swept)); reflexivity. }
  rewrite G3.
  assert (Eitems : at_items [] (srv_tree swept)
                   = filter (fun kv => negb (expired now (snd kv)))
                       (at_items [] (srv_tree server))).
  { rewrite Et. apply at_items_swept. }
  destruct St as (_ & Etime & _ & _ & _ & Egc & _).
  change (stats_time (srv_stats (tick now server))) with now in Etime.
  change (srv_gc_ratio (tick now server)) with (srv_gc_ratio server) in Egc.
  unfold pressure.
  destruct (Z.ltb_spec (limits_maxmem (srv_limits swept))
              (stats_memused (srv_stats swept))) as [Hpr|Hcalm].
  - rewrite (cron_memory_block_spec swept Hpr), at_items_swept, Etime, Egc, Eitems.
    rewrite filter_filter. reflexivity.
  - rewrite (cron_memory_block_idle swept Hcalm), Eitems.
    apply filter_ext. intros kv. cbn [andb negb]. rewrite andb_true_r. reflexivity.
Qed.

Lemma cron_tick_items_witness :
  (srv_shutdown pressed_server = 0 /\ 0 < srv_cronperiod pressed_server /\
   cron_due 15000 pressed_server = true /\ cron_due 5000 pressed_server = true) /\
  match gbServerCronHandler 100 pressed_server with
  | Running (after, _) => at_items [] (srv_tree after) = [(key_foo, item_foo)]
  | _ => False
  end.
Proof.
  split; [repeat split|].
  destruct (cron_tick_items 100 pressed_server) as (after & E & H);
    [reflexivity|reflexivity|reflexivity|reflexivity|].
  rewrite E, H. reflexivity.
Defined.

(** ** A prefix split over several reads *)

Lemma store_size_spilled bytes :
  forall off c, sizeof_int <= off ->
    client_spill (store_size off bytes c) = client_spill c ++ spilled off bytes.
Proof.
  induction bytes as [|b rest IH]; intros off c Hoff; cbn [store_size spilled].
  - rewrite app_nil_r. reflexivity.
  - destruct (Z.ltb_spec off sizeof_int) as [Hlt|_]; [lia|].
    rewrite andb_false_r, IH by lia.
    cbn [client_spill set_size_spill]. rewrite <- app_assoc. reflexivity.
Qed.

Lemma spilled_outside bytes :
  forall off, sizeof_int <= off ->
    Forall (fun w => sizeof_int <= fst w) (spilled off bytes) /\
    length (spilled off bytes) = length bytes.
Proof.
  induction bytes as [|b rest IH]; intros off Hoff; cbn [spilled length].
  - split; [constructor|reflexivity].
  - destruct (IH (off + 1)) as [F L]; [lia|].
    split; [constructor; [exact Hoff|exact F]|rewrite L; reflexivity].
Qed.

(** X7.  With one to three bytes of the size prefix in, the next read is
    aimed wholly past the size field: its target starts [sizeof(int) *
    client->read] bytes, at least 4, from the start of [buffer_size], and it
    asks for the missing [4 - client->read] bytes.  Every byte it delivers
    is written at an offset of at least 4, one after the other, and none
    reaches the field, which keeps its value. *)
Theorem split_prefix_tail_misses_field
    (server : gbServer) (client : gbClient) (l : read_locals) (bytes : list Z) :
  client_status client = STATUS_WAITING_SIZE ->
  1 <= client_read client < sizeof_int ->
  bytes <> [] ->
  let off := sizeof_int * client_read client in
  let toread := sizeof_int - client_read client in
  let got := firstn (Z.to_nat toread) bytes in
  read_size_block server client l
  = (server, Some (client, mkLocals (PSize off) (l_nread l) toread)) /\
  sizeof_int <= off /\
  (exists client' l',
     read_io_block (ReadAvailable bytes) server client
       (mkLocals (PSize off) (l_nread l) toread)
     = (server, Some (client', l')) /\
     l_nread l' = Z.of_nat (length got) /\
     client_buffer_size client' = client_buffer_size client /\
     client_spill client' = client_spill client ++ spilled off got) /\
  Forall (fun w => sizeof_int <= fst w) (spilled off got) /\
  length (spilled off got) = length got /\
  (0 < length got)%nat.
Proof.
  intros Hst Hrd Hb off toread got.
  assert (Hoff : sizeof_int <= off) by (unfold off, sizeof_int in *; lia).
  assert (Hlen : (0 < length got)%nat).
  { unfold got, toread. rewrite length_firstn. destruct bytes; [contradiction|].
    cbn [length]. unfold sizeof_int in *. lia. }
  split; [apply size_prefix_pointer; [exact Hst|lia]|].
  split; [exact Hoff|].
  destruct (spilled_outside got off Hoff) as [F L].
  split; [|split; [exact F|split; [exact L|exact Hlen]]].
  unfold read_io_block. rewrite Hst. cbn [l_toread l_p l_nread]. fold got.
  replace (Z.of_nat (length got) =? 0) with false by (symmetry; apply Z.eqb_neq; lia).
  eexists. eexists. split; [reflexivity|].
  cbn [l_nread store]. split; [reflexivity|].
  split; [apply store_size_past_field; exact Hoff|apply store_size_spilled; exact Hoff].
Qed.

Lemma split_prefix_tail_misses_field_witness :
  (client_status (mkClient 7 None 16 1 0 50 STATUS_WAITING_SIZE 0 [])
   = STATUS_WAITING_SIZE /\ [1; 0; 0] <> @nil Z) /\
  read_size_block busy_server (mkClient 7 None 16 1 0 50 STATUS_WAITING_SIZE 0 [])
    (mkLocals PNull 0 0)
  = (busy_server,
     Some (mkClient 7 None 16 1 0 50 STATUS_WAITING_SIZE 0 [], mkLocals (PSize 4) 0 3)) /\
  spilled 4 [1; 0; 0] = [(4, 1); (5, 0); (6, 0)].
Proof.
  split; [split; [reflexivity|discriminate]|].
  split; [|reflexivity].
  apply (split_prefix_tail_misses_field busy_server
           (mkClient 7 None 16 1 0 50 STATUS_WAITING_SIZE 0 [])
           (mkLocals PNull 0 0) [1; 0; 0]);
    [reflexivity|split; [discriminate|reflexivity]|discriminate].
Defined.

(** ** C9: the cached clock, from one tick to the next *)









(** The stamps of a client served after the tick given at time 100 carry
    100, whatever the wall clock says by then. *)
Example cached_time_is_the_tick_time :
  match gbServerCronHandler 100 busy_server with
  | Running (after, delay) =>
      delay = 100 /\
      let current :=
        dispatch_all no_query
          [Acceptable (mkAccept 9 true);
           Readable (ReadAvailable [3; 0; 0; 0]) 0 fresh_client] after in
      match gbWriteReplyHandler (Wrote 2) current (replying_client 0) with
      | (_, Some c) => client_seen c = 100
      | (_, None) => False
      end
  | _ => False
  end.
Proof. vm_compute. split; reflexivity. Qed.
